(** * parcel-plugin-wasm.rs: the build orchestration of [WASMbindgenAsset.js]

    A shallow embedding of the asset class of the plugin, and the properties
    of its mode resolution, crate-type check, strategy selection, command
    construction, output paths and dependency extraction.

    Strings are sequences of code units below 256 (Rocq's [string]); the
    JavaScript string methods used by the source are written out on them.
    The collaborators of the class (the process environment, the executables
    it spawns, the bundler's [getConfig], the [./lib] helpers, the TOML and
    JSON parsers) form a [World]; every method runs in a small monad that
    threads the asset's mutable fields and the log of the calls made to the
    outside, and that keeps both when an exception is thrown. *)

From Stdlib Require Import String Ascii List Bool Arith ZArith Lia.
Import ListNotations.
Local Open Scope list_scope.
Local Open Scope string_scope.
Local Open Scope nat_scope.
Set Warnings "-register-all".

(* ================================================================== *)
(** ** JavaScript string methods used by the source *)
(* ================================================================== *)

Module JsString.

(** White space in the sense of [String.prototype.trim], for code units
    below 256: TAB, LF, VT, FF, CR, SP and NBSP. *)
Definition isWhiteSpace (c : ascii) : bool :=
  let n := nat_of_ascii c in
  ((9 <=? n) && (n <=? 13)) || (n =? 32) || (n =? 160).

(** [\w] of a regular expression without flags: [A-Za-z0-9_]. *)
Definition isWordChar (c : ascii) : bool :=
  let n := nat_of_ascii c in
  ((48 <=? n) && (n <=? 57)) || ((65 <=? n) && (n <=? 90))
  || (n =? 95) || ((97 <=? n) && (n <=? 122)).

Fixpoint trimStart (s : string) : string :=
  match s with
  | EmptyString => EmptyString
  | String c s' => if isWhiteSpace c then trimStart s' else s
  end.

Fixpoint trimEnd (s : string) : string :=
  match s with
  | EmptyString => EmptyString
  | String c s' =>
      match trimEnd s' with
      | EmptyString => if isWhiteSpace c then EmptyString else String c EmptyString
      | r => String c r
      end
  end.

(** [s.trim()] *)
Definition trim (s : string) : string := trimEnd (trimStart s).

(** Prepend a code unit to the first piece of a split. *)
Definition consHead (c : ascii) (l : list string) : list string :=
  match l with
  | h :: t => String c h :: t
  | [] => [String c EmptyString]
  end.

(** [s.split(sep)] for a separator of one code unit: a cut at every
    occurrence; the empty string gives one empty piece. *)
Fixpoint split (sep : ascii) (s : string) : list string :=
  match s with
  | EmptyString => [EmptyString]
  | String c s' =>
      if Ascii.eqb c sep then EmptyString :: split sep s'
      else consHead c (split sep s')
  end.

(** [s.split(/\b\ /g)]: a cut at every space that stands at a word
    boundary.  A space is not a word character, so there is a boundary in
    front of it exactly when the code unit before it is a word character;
    [prevWord] says whether that is so (false at the start of the string).
    The look-behind of [\b] reads the whole string, so the flag is reset
    after a cut only because the space just consumed is no word
    character. *)
Fixpoint splitWordSpaceFrom (prevWord : bool) (s : string) : list string :=
  match s with
  | EmptyString => [EmptyString]
  | String c s' =>
      if prevWord && Ascii.eqb c " "
      then EmptyString :: splitWordSpaceFrom false s'
      else consHead c (splitWordSpaceFrom (isWordChar c) s')
  end.

Definition splitWordSpace (s : string) : list string :=
  splitWordSpaceFrom false s.

Fixpoint drop (n : nat) (s : string) : string :=
  match n, s with
  | O, _ => s
  | S _, EmptyString => EmptyString
  | S n', String _ s' => drop n' s'
  end.

(** [s.replace(pat, rep)] with a string pattern: only the first
    occurrence is replaced.  The replacements of the source (the empty
    string and a slash) hold no dollar sign, so they are taken as they
    are. *)
Fixpoint replaceFirst (pat rep s : string) : string :=
  if String.prefix pat s then rep ++ drop (String.length pat) s
  else match s with
       | EmptyString => EmptyString
       | String c s' => String c (replaceFirst pat rep s')
       end.

(** [s.replace(/c/g, d)] for single code units [c] and [d]. *)
Fixpoint replaceAllChar (c d : ascii) (s : string) : string :=
  match s with
  | EmptyString => EmptyString
  | String x s' => String (if Ascii.eqb x c then d else x) (replaceAllChar c d s')
  end.

(** Lower case of one code unit below 256: A-Z, and the upper-case letters
    of Latin-1 (0xC0-0xDE without the multiplication sign 0xD7). *)
Definition lowerChar (c : ascii) : ascii :=
  let n := nat_of_ascii c in
  if ((65 <=? n) && (n <=? 90))
     || ((192 <=? n) && (n <=? 222) && negb (n =? 215))
  then ascii_of_nat (n + 32) else c.

(** [s.toLowerCase()] *)
Fixpoint toLowerCase (s : string) : string :=
  match s with
  | EmptyString => EmptyString
  | String c s' => String (lowerChar c) (toLowerCase s')
  end.

(** [s[0]], [None] standing for [undefined]. *)
Definition head (s : string) : option ascii :=
  match s with
  | EmptyString => None
  | String c _ => Some c
  end.

(** Whether a code unit occurs in a string. *)
Fixpoint occurs (c : ascii) (s : string) : bool :=
  match s with
  | EmptyString => false
  | String x s' => Ascii.eqb x c || occurs c s'
  end.

(** How often a code unit occurs in a string. *)
Fixpoint count (c : ascii) (s : string) : nat :=
  match s with
  | EmptyString => 0
  | String x s' => (if Ascii.eqb x c then 1 else 0) + count c s'
  end.

End JsString.

(* ================================================================== *)
(** ** JavaScript values of a parsed configuration *)
(* ================================================================== *)

(** What the TOML parser hands over for [Cargo.toml]: tables are objects,
    arrays are arrays, and scalars are strings, numbers (integers here) and
    booleans. *)
Inductive value : Type :=
| VUndefined
| VNull
| VBool (b : bool)
| VNum (n : Z)
| VStr (s : string)
| VArr (items : list value)
| VObj (fields : list (string * value)).

(** What a method can throw. *)
Inductive exn : Type :=
| Thrown (message : string)     (* a string thrown by the plugin itself *)
| TypeError (what : string)     (* the run time's TypeError *)
| Rejected (reason : string).   (* the failure of a collaborator *)

Module JsValue.

(** [!!v] *)
Definition truthy (v : value) : bool :=
  match v with
  | VUndefined | VNull => false
  | VBool b => b
  | VNum n => negb (Z.eqb n 0)
  | VStr s => negb (String.eqb s "")
  | VArr _ | VObj _ => true
  end.

Fixpoint lookup (k : string) (fields : list (string * value)) : value :=
  match fields with
  | [] => VUndefined
  | (k', v) :: rest => if String.eqb k k' then v else lookup k rest
  end.

(** [v[k]] for the keys the source reads ([lib], [crate-type], [package],
    [name]): a TypeError on [null] and [undefined], the field of an
    object, and [undefined] on everything else. *)
Definition getProp (v : value) (k : string) : exn + value :=
  match v with
  | VUndefined | VNull => inl (TypeError ("Cannot read property '" ++ k ++ "'"))
  | VObj fields => inr (lookup k fields)
  | _ => inr VUndefined
  end.

(** [Array.isArray(v)] *)
Definition isArray (v : value) : bool :=
  match v with VArr _ => true | _ => false end.

(** [items.includes(s)] for a string [s]: only a string can be the same
    value as a string. *)
Definition includesStr (s : string) (items : list value) : bool :=
  existsb (fun v => match v with VStr x => String.eqb x s | _ => false end) items.

End JsValue.

(* ================================================================== *)
(** ** The [path] module *)
(* ================================================================== *)

(** Node's [path] comes in two flavours behind one interface, [path.posix]
    and [path.win32]; the class is written against the interface, and every
    property below that does not name a flavour holds for any implementation
    of it. *)
Class PathModule : Type := {
  basename : string -> string;
  extname : string -> string;
  dirname : string -> string;
  join : list string -> string;
  relative : string -> string -> string
}.

(** Two implementations on lists of segments, used to run the class on
    concrete paths.  They agree with Node on normalised absolute paths that
    carry no trailing separator (and, for win32, that sit on one drive
    written in one case), which is all the examples below feed them. *)
Module SimplePath.

Fixpoint splitBy (isSep : ascii -> bool) (s : string) : list string :=
  match s with
  | EmptyString => [EmptyString]
  | String c s' =>
      if isSep c then EmptyString :: splitBy isSep s'
      else JsString.consHead c (splitBy isSep s')
  end.

Definition segments (isSep : ascii -> bool) (s : string) : list string :=
  filter (fun x => negb (String.eqb x "")) (splitBy isSep s).

Definition rooted (isSep : ascii -> bool) (s : string) : bool :=
  match s with
  | String c _ => isSep c
  | EmptyString => false
  end.

(** Resolution of [.] and [..]; [acc] holds the segments kept so far, the
    last one first. *)
Fixpoint normalizeSegs (abs : bool) (acc l : list string) : list string :=
  match l with
  | [] => rev acc
  | x :: t =>
      if String.eqb x "." then normalizeSegs abs acc t
      else if String.eqb x ".." then
        match acc with
        | [] => if abs then normalizeSegs abs [] t else normalizeSegs abs [".."] t
        | y :: acc' =>
            if String.eqb y ".." then normalizeSegs abs (x :: acc) t
            else normalizeSegs abs acc' t
        end
      else normalizeSegs abs (x :: acc) t
  end.

Definition unsegments (sep : ascii) (abs : bool) (l : list string) : string :=
  match l, abs with
  | [], true => String sep ""
  | [], false => "."
  | _, true => String sep (String.concat (String sep "") l)
  | _, false => String.concat (String sep "") l
  end.

Definition normalize (isSep : ascii -> bool) (sep : ascii) (p : string) : string :=
  unsegments sep (rooted isSep p)
    (normalizeSegs (rooted isSep p) [] (segments isSep p)).

Definition join_ (isSep : ascii -> bool) (sep : ascii) (parts : list string) : string :=
  normalize isSep sep
    (String.concat (String sep "") (filter (fun x => negb (String.eqb x "")) parts)).

Definition basename_ (isSep : ascii -> bool) (p : string) : string :=
  last (segments isSep p) "".

Definition dirname_ (isSep : ascii -> bool) (sep : ascii) (p : string) : string :=
  unsegments sep (rooted isSep p) (removelast (segments isSep p)).

(** The suffix of [s] that starts at its last dot. *)
Fixpoint lastDotSuffix (s : string) : option string :=
  match s with
  | EmptyString => None
  | String c s' =>
      match lastDotSuffix s' with
      | Some r => Some r
      | None => if Ascii.eqb c "." then Some s else None
      end
  end.

(** A dot that opens the base name starts no extension. *)
Definition extname_ (isSep : ascii -> bool) (p : string) : string :=
  match basename_ isSep p with
  | EmptyString => ""
  | String _ rest as b =>
      if String.eqb b ".." then ""
      else match lastDotSuffix rest with Some r => r | None => "" end
  end.

Fixpoint stripCommon (a b : list string) : list string * list string :=
  match a, b with
  | x :: a', y :: b' => if String.eqb x y then stripCommon a' b' else (a, b)
  | _, _ => (a, b)
  end.

Definition relative_ (isSep : ascii -> bool) (sep : ascii) (from to : string) : string :=
  let f := normalizeSegs true [] (segments isSep from) in
  let t := normalizeSegs true [] (segments isSep to) in
  let (f', t') := stripCommon f t in
  String.concat (String sep "") (map (fun _ => "..") f' ++ t')%list.

Definition isSlash (c : ascii) : bool := Ascii.eqb c "/".
Definition isSlashOrBackslash (c : ascii) : bool :=
  Ascii.eqb c "/" || Ascii.eqb c "\".

Definition posix : PathModule := {|
  basename := basename_ isSlash;
  extname := extname_ isSlash;
  dirname := dirname_ isSlash "/";
  join := join_ isSlash "/";
  relative := relative_ isSlash "/"
|}.

Definition win32 : PathModule := {|
  basename := basename_ isSlashOrBackslash;
  extname := extname_ isSlashOrBackslash;
  dirname := dirname_ isSlashOrBackslash "\";
  join := join_ isSlashOrBackslash "\";
  relative := relative_ isSlashOrBackslash "\"
|}.

End SimplePath.


(* ================================================================== *)
(** ** The outside world and the effects of a method *)
(* ================================================================== *)

(** The options given to [execFile]. *)
Record ExecOptions : Type := {
  cwd : option string;
  maxBuffer : option N
}.

(** The calls a method makes to the outside, in the order it makes them. *)
Inductive event : Type :=
| Probe (cmd : string)                                   (* commandExists(cmd) *)
| Exec (cmd : string) (args : list string) (opts : ExecOptions)
| ReadFile (file : string)                               (* lib.readFile(file, 'utf8') *)
| AddDependency (dep : string) (includedInParent : bool).

(** The collaborators.  What a subprocess answers may depend on everything
    that was called before it.  The log records the calls the class itself
    makes to the executables, to [./lib] and to [addDependency]; what the
    bundler's [getConfig] does on its own while it loads the manifest is not
    recorded. *)
Record World : Type := {
  WASM_PACK_PROFILE : option string;          (* process.env.WASM_PACK_PROFILE *)
  NODE_ENV : option string;                   (* process.env.NODE_ENV *)
  commandExists : string -> bool;             (* does the promise resolve? *)
  execFile : list event -> string -> list string -> ExecOptions -> exn + string;
  getConfig : string -> list string -> exn + value;   (* the bundler's this.getConfig *)
  resolve : string -> list string -> option string;   (* lib.resolve, None for no file *)
  readFile : string -> exn + string;                  (* lib.readFile *)
  tomlParse : string -> exn + value;                  (* toml.parse *)
  jsonParse : string -> exn + value                   (* JSON.parse *)
}.

Record Options : Type := {
  target : string;
  isWarmUp : bool
}.

(** What identifies an asset: [this.name] and [this.options]. *)
Record Asset : Type := {
  name : string;
  options : Options
}.

(** The fields a method assigns, and the log of its calls. *)
Record AssetState : Type := {
  jsPath : option string;
  jsAltPath : option string;
  wasmPath : option string;
  depsPath : option string;
  log : list event
}.

Definition initial : AssetState :=
  {| jsPath := None; jsAltPath := None; wasmPath := None; depsPath := None; log := [] |}.

(** State and exceptions: a thrown exception keeps the state reached. *)
Definition M (A : Type) : Type := AssetState -> (exn + A) * AssetState.

Definition ret {A} (x : A) : M A := fun s => (inr x, s).

Definition throw {A} (e : exn) : M A := fun s => (inl e, s).

Definition bind {A B} (m : M A) (k : A -> M B) : M B :=
  fun s => match m s with
           | (inr x, s') => k x s'
           | (inl e, s') => (inl e, s')
           end.

Definition lift {A} (r : exn + A) : M A := fun s => (r, s).

(** [try { m } catch (e) { h e }] *)
Definition tryCatch {A} (m : M A) (h : exn -> M A) : M A :=
  fun s => match m s with
           | (inr x, s') => (inr x, s')
           | (inl e, s') => h e s'
           end.

Notation "x <- m ;; k" := (bind m (fun x => k))
  (at level 61, m at next level, right associativity).
Notation "m ;;; k" := (bind m (fun _ => k))
  (at level 61, right associativity).

(** The state after one more call. *)
Definition logged (e : event) (s : AssetState) : AssetState :=
  {| jsPath := jsPath s; jsAltPath := jsAltPath s; wasmPath := wasmPath s;
     depsPath := depsPath s; log := (log s ++ [e])%list |}.

Definition record (e : event) : M unit := fun s => (inr tt, logged e s).

Definition setOutputPaths (js alt wasm : string) : M unit :=
  fun s => (inr tt,
            {| jsPath := Some js; jsAltPath := Some alt; wasmPath := Some wasm;
               depsPath := depsPath s; log := log s |}).

Definition setDepsPath (d : string) : M unit :=
  fun s => (inr tt,
            {| jsPath := jsPath s; jsAltPath := jsAltPath s; wasmPath := wasmPath s;
               depsPath := Some d; log := log s |}).

Definition get : M AssetState := fun s => (inr s, s).

(** The outcome and the calls of a method started on a fresh asset. *)
Definition outcome {A} (m : M A) : exn + A := fst (m initial).
Definition calls {A} (m : M A) : list event := log (snd (m initial)).

Definition isExec (e : event) : bool :=
  match e with Exec _ _ _ => true | _ => false end.

(* ================================================================== *)
(** ** [index.js] and the class [WASMbindgenAsset] *)
(* ================================================================== *)

(** [index.js]: the extensions routed to the class. *)
Definition assetTypes : list string := ["toml"; "rs"].

Definition RUST_TARGET : string := "wasm32-unknown-unknown".

Definition newline : string := String (ascii_of_nat 10) "".

(** What [buildOpts] returns. *)
Record BuildOpts : Type := {
  cargoTargetDirName : string;
  cargoProfile : string;
  wasmPackProfile : string
}.

(** What a build strategy returns. *)
Record BuildResult : Type := {
  outDir : string;
  rustName : string;
  cargoDir : string
}.

(** An element of what [generate] returns. *)
Record Generated : Type := {
  gen_type : string;
  gen_value : string
}.

Definition notRustMessage (assetName : string) : string :=
  assetName ++ " is not valid Rust file or Cargo.toml".

Definition crateTypeMessage : string :=
  "The `crate-type` in Cargo.toml should be `cdylib`".

Definition profileMessage (v : string) : string :=
  v ++ " (set by WASM_PACK_PROFILE) is not a recognized wasm-pack build profile".

Definition installWasmPackMessage : string := "Please install wasm-pack".

Definition installCargoMessage : string := "Please install Cargo for Rust".

Definition buildFailedMessage : string :=
  "Building failed... Please install wasm-pack and try again.".

Section WASMbindgenAsset.

Context {path : PathModule}.
Variable w : World.
Variable this : Asset.

(** [cmdExists]: the probe never throws. *)
Definition cmdExists (cmd : string) : M bool :=
  record (Probe cmd) ;;; ret (commandExists w cmd).

(** [exec(cmd, args, opts)] *)
Definition exec (cmd : string) (args : list string) (opts : ExecOptions) : M string :=
  s <- get ;;
  record (Exec cmd args opts) ;;;
  lift (execFile w (log s) cmd args opts).

(** The constructor sets [this.type]. *)
Definition type : string := "js".

(** [process]: nothing on a warm-up run, the bundler's own [process]
    otherwise. *)
Definition process (superProcess : M value) : M value :=
  if isWarmUp (options this) then ret VUndefined else superProcess.

Definition isTargetRust : bool :=
  String.eqb (basename (name this)) "Cargo.toml"
  || String.eqb (extname (name this)) ".rs".

Definition isNormalTOML : bool :=
  String.eqb (extname (name this)) ".toml".

(** The two locals [inReleaseMode] and [wasmPackProfile] of [buildOpts]
    once its two [switch] statements are through. *)
Definition buildMode : exn + (bool * string) :=
  match WASM_PACK_PROFILE w with
  | Some wasmPackProfileEnv =>
      let v := JsString.toLowerCase wasmPackProfileEnv in
      if String.eqb v "dev" || String.eqb v "debug" then inr (false, "dev")
      else if String.eqb v "release" then inr (true, "release")
      else if String.eqb v "profiling" then inr (true, "profiling")
      else inl (Thrown (profileMessage wasmPackProfileEnv))
  | None =>
      match NODE_ENV w with
      | Some nodeEnv =>
          let v := JsString.toLowerCase nodeEnv in
          if String.eqb v "dev" || String.eqb v "development" then inr (false, "dev")
          else if String.eqb v "release" || String.eqb v "production"
               then inr (true, "release")
          else inr (true, "release")
      | None => inr (true, "release")
      end
  end.

(** The options destructured at the end of the method ([logLevel],
    [sourceMaps], [autoInstall]) are not read. *)
Definition buildOpts : exn + BuildOpts :=
  match buildMode with
  | inl e => inl e
  | inr (inReleaseMode, profile) =>
      inr {| cargoTargetDirName := if inReleaseMode then "release" else "debug";
             cargoProfile := if inReleaseMode then "--release" else "--debug";
             wasmPackProfile := profile |}
  end.

Definition crateTypeCheck (cargoConfig : value) : M value :=
  lib <- lift (JsValue.getProp cargoConfig "lib") ;;
  if negb (JsValue.truthy lib) then throw (Thrown crateTypeMessage)
  else
    crateType <- lift (JsValue.getProp lib "crate-type") ;;
    match crateType with
    | VArr items =>
        if negb (JsValue.includesStr "cdylib" items) then throw (Thrown crateTypeMessage)
        else ret cargoConfig
    | _ => throw (Thrown crateTypeMessage)
    end.

(** [cargoConfig.package.name.replace(/-/g, '_')] *)
Definition crateName (cargoConfig : value) : exn + string :=
  match JsValue.getProp cargoConfig "package" with
  | inl e => inl e
  | inr pkg =>
      match JsValue.getProp pkg "name" with
      | inl e => inl e
      | inr (VStr n) => inr (JsString.replaceAllChar "-" "_" n)
      | inr _ => inl (TypeError "replace is not a function")
      end
  end.

(** The argument list of [wasmPackBuild], built as the source builds it. *)
Definition wasmPackArgs (hasBuildCommand has_deps isNode : bool) (profile : string)
  : list string :=
  let args :=
    if hasBuildCommand
    then (if has_deps then ["build"; "-m"; "no-install"] else ["build"])
    else (if has_deps then ["init"; "-m"; "no-install"] else ["init"]) in
  let args :=
    if isNode then (args ++ ["--target"; "nodejs"])%list
    else (args ++ ["--target"; "bundler"])%list in
  (args ++ [("--" ++ profile)%string])%list.

Definition isNode : bool := String.eqb (target (options this)) "node".

Definition inDir (dir : string) : ExecOptions :=
  {| cwd := Some dir; maxBuffer := None |}.

Definition noOptions : ExecOptions :=
  {| cwd := None; maxBuffer := None |}.

Definition wasmPackBuild (cargoConfig : value) (cargoDir_ : string) (has_deps : bool)
  : M BuildResult :=
  hasBuildCommand <-
    tryCatch (exec "wasm-pack" ["build"; "--help"] noOptions ;;; ret true)
             (fun _ => ret false) ;;
  opts <- lift buildOpts ;;
  exec "wasm-pack" (wasmPackArgs hasBuildCommand has_deps isNode (wasmPackProfile opts))
       (inDir cargoDir_) ;;;
  rustName_ <- lift (crateName cargoConfig) ;;
  ret {| outDir := join [cargoDir_; "pkg"]; rustName := rustName_; cargoDir := cargoDir_ |}.

(** [JSON.parse(stdout).target_directory], as the argument of a
    [path.join]: anything but a string makes the join throw. *)
Definition targetDirectory (stdout : string) : exn + string :=
  match jsonParse w stdout with
  | inl e => inl e
  | inr cargoMetadata =>
      match JsValue.getProp cargoMetadata "target_directory" with
      | inl e => inl e
      | inr (VStr d) => inr d
      | inr _ => inl (TypeError "The path argument must be of type string")
      end
  end.

(** The [try] block of [rawBuild].  The output directory joins the target
    directory, the Rust target and the target directory once more, as the
    source does. *)
Definition rawBuildSteps (cargoConfig : value) (cargoDir_ : string) : M BuildResult :=
  opts <- lift buildOpts ;;
  exec "cargo" ["build"; "--target"; RUST_TARGET; cargoProfile opts] (inDir cargoDir_) ;;;
  stdout <- exec "cargo" ["metadata"; "--format-version"; "1"] (inDir cargoDir_) ;;
  cargoTargetDir <- lift (targetDirectory stdout) ;;
  let outDir_ := join [cargoTargetDir; RUST_TARGET; cargoTargetDir] in
  rustName_ <- lift (crateName cargoConfig) ;;
  exec "wasm-bindgen"
       [join [outDir_; rustName_ ++ ".wasm"];
        "--out-dir"; outDir_;
        "--target"; if isNode then "nodejs" else "web"]
       (inDir cargoDir_) ;;;
  ret {| outDir := outDir_; rustName := rustName_; cargoDir := cargoDir_ |}.

Definition rawBuild (cargoConfig : value) (cargoDir_ : string) : M BuildResult :=
  tryCatch (rawBuildSteps cargoConfig cargoDir_)
           (fun _ => throw (Thrown buildFailedMessage)).

(** What [path.relative] answers for a file of the output directory, from
    the directory of the asset. *)
Definition relativeToAsset (outDir_ relative_ : string) : string :=
  relative (dirname (name this)) (join [outDir_; relative_]).

(** The closure [getPath] of [wasmPostProcess]. *)
Definition getPath (outDir_ relative_ : string) : string :=
  let p := relativeToAsset outDir_ relative_ in
  let p :=
    match JsString.head p with
    | Some "."%char => p
    | _ => "./" ++ p
    end in
  JsString.replaceFirst "\" "/" p.

Definition wasmPostProcess (r : BuildResult) : M unit :=
  opts <- lift buildOpts ;;
  setOutputPaths (getPath (outDir r) (rustName r ++ ".js"))
                 (getPath (outDir r) (rustName r ++ "_bg.js"))
                 (getPath (outDir r) (rustName r ++ "_bg.wasm")) ;;;
  stdout <- exec "cargo" ["metadata"; "--format-version"; "1"]
                 {| cwd := Some (cargoDir r); maxBuffer := Some (1024 * 1024)%N |} ;;
  cargoTargetDir <- lift (targetDirectory stdout) ;;
  setDepsPath (join [cargoTargetDir; RUST_TARGET; cargoTargetDirName opts;
                     rustName r ++ ".d"]).

(** The strategy chosen by [parse] from the three probes. *)
Definition build (cargoConfig : value) (cargoDir_ : string)
           (has_wasm_pack has_cargo has_wasmbindgen : bool) : M BuildResult :=
  if has_wasm_pack then
    wasmPackBuild cargoConfig cargoDir_ (has_cargo && has_wasmbindgen)
  else if has_cargo then
    if has_wasmbindgen then rawBuild cargoConfig cargoDir_
    else throw (Thrown installWasmPackMessage)
  else throw (Thrown installCargoMessage).

Definition parse (code : string) : M value :=
  if negb isTargetRust then
    if isNormalTOML then lift (tomlParse w code)
    else throw (Thrown (notRustMessage (name this)))
  else
    cargoConfig <- lift (getConfig w (name this) ["Cargo.toml"]) ;;
    cargoDir_ <-
      match resolve w (name this) ["Cargo.toml"] with
      | Some file => ret (dirname file)
      | None => throw (TypeError "The path argument must be of type string")
      end ;;
    crateTypeCheck cargoConfig ;;;
    has_wasm_pack <- cmdExists "wasm-pack" ;;
    has_cargo <- cmdExists "cargo" ;;
    has_wasmbindgen <- cmdExists "wasm-bindgen" ;;
    build_result <- build cargoConfig cargoDir_ has_wasm_pack has_cargo has_wasmbindgen ;;
    wasmPostProcess build_result ;;;
    ret VUndefined.

(** [contents.trim().split(':')[1].split(/\b\ /g)
       .map(x => x.trim().replace('\\ ', ''))];
    [None] when the second piece is [undefined]. *)
Definition depsOf (contents : string) : option (list string) :=
  match nth_error (JsString.split ":" (JsString.trim contents)) 1 with
  | None => None
  | Some rest =>
      Some (map (fun x => JsString.replaceFirst "\ " "" (JsString.trim x))
                (JsString.splitWordSpace rest))
  end.

Fixpoint addDependencies (deps : list string) : M unit :=
  match deps with
  | [] => ret tt
  | dep :: rest =>
      (if negb (String.eqb dep (name this))
       then record (AddDependency dep true)
       else ret tt) ;;;
      addDependencies rest
  end.

(** With [depsPath] unset the source hands [undefined] to [lib.readFile];
    here that call is taken to throw a TypeError, and no read is logged. *)
Definition collectDependencies : M value :=
  if negb isTargetRust then ret (VBool false)
  else
    s <- get ;;
    contents <-
      match depsPath s with
      | Some file => record (ReadFile file) ;;; lift (readFile w file)
      | None => throw (TypeError "The path argument must be of type string")
      end ;;
    match depsOf contents with
    | None => throw (TypeError "Cannot read property 'split' of undefined")
    | Some deps => addDependencies deps ;;; ret VUndefined
    end.

Definition orUndefined (o : option string) : string :=
  match o with Some s => s | None => "undefined" end.

(** With [jsPath] unset the source hands [undefined] to [lib.readFile];
    here that call is taken to throw a TypeError, and no read is logged. *)
Definition generate : M (list Generated) :=
  if isTargetRust then
    s <- get ;;
    value_ <-
      (if isNode then
         match jsPath s with
         | Some file => record (ReadFile file) ;;; lift (readFile w file)
         | None => throw (TypeError "The path argument must be of type string")
         end
       else
         ret ("import * as wasm from '" ++ orUndefined (wasmPath s) ++ "'" ++ newline
              ++ "export * from '" ++ orUndefined (jsAltPath s) ++ "'" ++ newline)) ;;
    ret [ {| gen_type := "js"; gen_value := value_ |} ]
  else throw (Thrown (notRustMessage (name this))).

End WASMbindgenAsset.

(* ================================================================== *)
(** ** Names for the calls of a build *)
(* ================================================================== *)

Section Calls.

Variable w : World.
Variable this : Asset.

Definition probes : list event :=
  [Probe "wasm-pack"; Probe "cargo"; Probe "wasm-bindgen"].

(** The state once the three probes of [parse] are through. *)
Definition afterProbes (s : AssetState) : AssetState :=
  logged (Probe "wasm-bindgen") (logged (Probe "cargo") (logged (Probe "wasm-pack") s)).

(** Whether the probe [wasm-pack build --help] succeeds when it is the next
    call after the log [l]. *)
Definition helpProbe (l : list event) : bool :=
  match execFile w l "wasm-pack" ["build"; "--help"] noOptions with
  | inr _ => true
  | inl _ => false
  end.

Definition helpCall : event := Exec "wasm-pack" ["build"; "--help"] noOptions.

Definition packCall (l : list event) (cargoDir_ : string) (has_deps : bool)
           (profile : string) : event :=
  Exec "wasm-pack" (wasmPackArgs (helpProbe l) has_deps (isNode this) profile)
       (inDir cargoDir_).

Definition metadataCall (cargoDir_ : string) : event :=
  Exec "cargo" ["metadata"; "--format-version"; "1"]
       {| cwd := Some cargoDir_; maxBuffer := Some (1024 * 1024)%N |}.

(** The second step of [getPath]: [./] in front of a path that does not
    open with a dot. *)
Definition dotted (s : string) : string :=
  match JsString.head s with
  | Some "."%char => s
  | _ => "./" ++ s
  end.

(** The state after a list of further calls. *)
Definition loggedAll (l : list event) (s : AssetState) : AssetState :=
  {| jsPath := jsPath s; jsAltPath := jsAltPath s; wasmPath := wasmPath s;
     depsPath := depsPath s; log := (log s ++ l)%list |}.

(** The calls of [collectDependencies] for the pieces [deps] of a manifest:
    one [addDependency] for every piece that is not the asset's name. *)
Definition dependencyCalls (deps : list string) : list event :=
  map (fun dep => AddDependency dep true)
      (filter (fun dep => negb (String.eqb dep (name this))) deps).

(** The paths handed to [addDependency], in the order of the calls. *)
Fixpoint added (l : list event) : list string :=
  match l with
  | [] => []
  | AddDependency dep _ :: rest => dep :: added rest
  | _ :: rest => added rest
  end.

End Calls.

(* ================================================================== *)
(** ** What the specification says, in its own words *)
(* ================================================================== *)

(** The manifest declares a library whose crate-type list holds [cdylib]. *)
Definition libSection (cargoConfig : value) : value :=
  match JsValue.getProp cargoConfig "lib" with
  | inr v => v
  | inl _ => VUndefined
  end.

Definition crateTypeOf (cargoConfig : value) : value :=
  match JsValue.getProp (libSection cargoConfig) "crate-type" with
  | inr v => v
  | inl _ => VUndefined
  end.

Definition declaresCdylib (cargoConfig : value) : bool :=
  JsValue.truthy (libSection cargoConfig)
  && match crateTypeOf cargoConfig with
     | VArr items => JsValue.includesStr "cdylib" items
     | _ => false
     end.

(** Dependency extraction as the specification words it: cut at the first
    colon, cut the remainder at every space that no backslash escapes, and
    turn every escaped space into a space. *)
Module DepSpec.

Fixpoint afterFirstColon (s : string) : option string :=
  match s with
  | EmptyString => None
  | String c s' => if Ascii.eqb c ":" then Some s' else afterFirstColon s'
  end.

(** [escaped] says that the code unit just read is an escaping backslash. *)
Fixpoint splitUnescaped (escaped : bool) (s : string) : list string :=
  match s with
  | EmptyString => [EmptyString]
  | String c s' =>
      if negb escaped && Ascii.eqb c " "
      then EmptyString :: splitUnescaped false s'
      else JsString.consHead c
             (splitUnescaped (negb escaped && Ascii.eqb c "\") s')
  end.

Fixpoint unescapeSpaces (s : string) : string :=
  match s with
  | String "\" (String " " s') => String " " (unescapeSpaces s')
  | String c s' => String c (unescapeSpaces s')
  | EmptyString => EmptyString
  end.

Definition paths (contents : string) : option (list string) :=
  match afterFirstColon (JsString.trim contents) with
  | None => None
  | Some rest =>
      Some (map unescapeSpaces
                (filter (fun x => negb (String.eqb x ""))
                        (splitUnescaped false rest)))
  end.

Definition dependencies (assetName contents : string) : option (list string) :=
  option_map (filter (fun d => negb (String.eqb d assetName))) (paths contents).

End DepSpec.

(** Manifests on which the method and the words of the specification meet:
    one rule [target: d1 d2 ... dn] whose paths hold no colon, no backslash
    and no white space, and end in a word character (as [lib.rs] does). *)
Module Plain.

Definition plainChar (c : ascii) : bool :=
  negb (JsString.isWhiteSpace c) && negb (Ascii.eqb c ":") && negb (Ascii.eqb c "\").

Fixpoint allChars (f : ascii -> bool) (s : string) : bool :=
  match s with
  | EmptyString => true
  | String c s' => f c && allChars f s'
  end.

(** A path: plain code units, the last of them a word character. *)
Fixpoint plainPath (d : string) : bool :=
  match d with
  | EmptyString => false
  | String c EmptyString => plainChar c && JsString.isWordChar c
  | String c d' => plainChar c && plainPath d'
  end.

(** The text behind the colon: every path with a space in front. *)
Fixpoint rule (ds : list string) : string :=
  match ds with
  | [] => EmptyString
  | d :: ds' => " " ++ d ++ rule ds'
  end.

Definition manifest (target : string) (ds : list string) : string :=
  target ++ ":" ++ rule ds.

(** Whether the code unit in front of what follows [d] is a word character,
    [b] saying so for what is in front of [d]. *)
Fixpoint endsWord (b : bool) (d : string) : bool :=
  match d with
  | EmptyString => b
  | String c d' => endsWord (JsString.isWordChar c) d'
  end.

(** [d] put in front of the first piece of a split. *)
Definition prependHead (d : string) (l : list string) : list string :=
  match l with
  | h :: t => (d ++ h) :: t
  | [] => [d]
  end.

End Plain.

(* ================================================================== *)
(** ** A concrete crate, to run the class on *)
(* ================================================================== *)

Module Demo.

Definition manifest : value :=
  VObj [("package", VObj [("name", VStr "demo-crate")]);
        ("lib", VObj [("crate-type", VArr [VStr "cdylib"])])].

Definition metadataOutput : string := "<cargo metadata>".

Definition depsFile : string :=
  "/proj/target/wasm32-unknown-unknown/release/demo_crate.d".

Definition installed (wasmPack cargo wasmBindgen : bool) (cmd : string) : bool :=
  if String.eqb cmd "wasm-pack" then wasmPack
  else if String.eqb cmd "cargo" then cargo
  else if String.eqb cmd "wasm-bindgen" then wasmBindgen
  else false.

(** A host on which a command runs exactly when it is installed, and on
    which the [.d] file of the crate reads [contents]. *)
Definition world (profile nodeEnv : option string)
           (wasmPack cargo wasmBindgen : bool) (contents : string) : World :=
  {| WASM_PACK_PROFILE := profile;
     NODE_ENV := nodeEnv;
     commandExists := installed wasmPack cargo wasmBindgen;
     execFile := fun _ cmd _ _ =>
       if installed wasmPack cargo wasmBindgen cmd
       then inr (if String.eqb cmd "cargo" then metadataOutput else "")
       else inl (Rejected ("spawn " ++ cmd ++ " ENOENT"));
     getConfig := fun _ _ => inr manifest;
     resolve := fun _ _ => Some "/proj/Cargo.toml";
     readFile := fun file =>
       if String.eqb file depsFile then inr contents
       else inl (Rejected "ENOENT");
     tomlParse := fun _ => inr (VObj []);
     jsonParse := fun s =>
       if String.eqb s metadataOutput
       then inr (VObj [("target_directory", VStr "/proj/target")])
       else inl (Rejected "SyntaxError") |}.

(** The same host with another manifest, or with other subprocesses. *)
Definition withManifest (m : value) (w : World) : World :=
  {| WASM_PACK_PROFILE := WASM_PACK_PROFILE w; NODE_ENV := NODE_ENV w;
     commandExists := commandExists w; execFile := execFile w;
     getConfig := fun _ _ => inr m; resolve := resolve w; readFile := readFile w;
     tomlParse := tomlParse w; jsonParse := jsonParse w |}.

Definition withExec (f : list event -> string -> list string -> ExecOptions -> exn + string)
           (w : World) : World :=
  {| WASM_PACK_PROFILE := WASM_PACK_PROFILE w; NODE_ENV := NODE_ENV w;
     commandExists := commandExists w; execFile := f;
     getConfig := getConfig w; resolve := resolve w; readFile := readFile w;
     tomlParse := tomlParse w; jsonParse := jsonParse w |}.

(** The same host with another TOML parser, or with other files. *)
Definition withToml (f : string -> exn + value) (w : World) : World :=
  {| WASM_PACK_PROFILE := WASM_PACK_PROFILE w; NODE_ENV := NODE_ENV w;
     commandExists := commandExists w; execFile := execFile w;
     getConfig := getConfig w; resolve := resolve w; readFile := readFile w;
     tomlParse := f; jsonParse := jsonParse w |}.

Definition withFiles (f : string -> exn + string) (w : World) : World :=
  {| WASM_PACK_PROFILE := WASM_PACK_PROFILE w; NODE_ENV := NODE_ENV w;
     commandExists := commandExists w; execFile := execFile w;
     getConfig := getConfig w; resolve := resolve w; readFile := f;
     tomlParse := tomlParse w; jsonParse := jsonParse w |}.

(** A TOML parser that refuses a table header left open, as the parser of
    the plugin does. *)
Definition strictToml (code : string) : exn + value :=
  if String.prefix "[" code && negb (JsString.occurs "]" code)
  then inl (Rejected "TomlError: Unterminated table header")
  else inr (VObj []).

(** The files of a built [pkg] directory, as seen from [/proj/src]. *)
Definition pkgFiles (file : string) : exn + string :=
  if String.eqb file "../pkg/demo_crate.js"
  then inr "module.exports = require('./demo_crate_bg.js');"
  else inl (Rejected "ENOENT").

(** A binary crate: a package and no [lib] section. *)
Definition binManifest : value :=
  VObj [("package", VObj [("name", VStr "demo-crate")])].

(** Subprocesses of a host whose [cargo build] stops with an error. *)
Definition failingCargoBuild (_ : list event) (cmd : string) (args : list string)
           (_ : ExecOptions) : exn + string :=
  if String.eqb cmd "cargo" && String.eqb (hd "" args) "build"
  then inl (Rejected "error: could not compile `demo-crate`")
  else inr "".

Definition browser : Options := {| target := "browser"; isWarmUp := false |}.
Definition node : Options := {| target := "node"; isWarmUp := false |}.

Definition libRs : Asset := {| name := "/proj/src/lib.rs"; options := browser |}.
Definition settingsToml : Asset := {| name := "/proj/settings.toml"; options := browser |}.
Definition winLibRs : Asset := {| name := "C:\proj\src\lib.rs"; options := browser |}.

End Demo.


(* ================================================================== *)
(** ** What a method may call *)
(* ================================================================== *)

(** The three executables the class knows. *)
Definition isTool (cmd : string) : bool :=
  String.eqb cmd "wasm-pack" || String.eqb cmd "cargo" || String.eqb cmd "wasm-bindgen".

Definition isHelpArgs (args : list string) : bool :=
  match args with
  | [a; b] => String.eqb a "build" && String.eqb b "--help"
  | _ => false
  end.

(** The calls of a build of the crate in [dir]: a probe of a tool, a tool
    run in [dir], or wasm-pack asked for the help of [build] with no
    directory given. *)
Definition buildCall (dir : string) (e : event) : bool :=
  match e with
  | Probe cmd => isTool cmd
  | Exec cmd args opts =>
      isTool cmd
      && match cwd opts with
         | Some d => String.eqb d dir
         | None => String.eqb cmd "wasm-pack" && isHelpArgs args
         end
  | ReadFile _ | AddDependency _ _ => false
  end.

(** A probe of an executable, or an executable started. *)
Definition isToolCall (e : event) : bool :=
  match e with
  | Probe _ | Exec _ _ _ => true
  | ReadFile _ | AddDependency _ _ => false
  end.

(** The calls of a dependency extraction for the asset [assetName]: the
    manifest read, and a dependency other than the asset itself, flagged as
    included in its parent. *)
Definition dependencyCall (assetName : string) (e : event) : bool :=
  match e with
  | ReadFile _ => true
  | AddDependency dep includedInParent =>
      includedInParent && negb (String.eqb dep assetName)
  | Probe _ | Exec _ _ _ => false
  end.

(** The directory [parse] builds in: that of the manifest [lib.resolve]
    finds. *)
Definition crateDir {path : PathModule} (w : World) (this : Asset) : string :=
  match resolve w (name this) ["Cargo.toml"] with
  | Some file => dirname file
  | None => ""
  end.

(** The text [generate] returns for a bundle that does not target node. *)
Definition glue (wasm alt : string) : string :=
  "import * as wasm from '" ++ wasm ++ "'" ++ newline
  ++ "export * from '" ++ alt ++ "'" ++ newline.

(* ================================================================== *)
(** ** Properties: the Mode Resolver ([buildOpts]) *)
(* ================================================================== *)

Section ModeResolver.

Variable w : World.

Lemma buildMode_profile (v : string) :
  WASM_PACK_PROFILE w = Some v ->
  buildMode w =
    let l := JsString.toLowerCase v in
    if String.eqb l "dev" || String.eqb l "debug" then inr (false, "dev")
    else if String.eqb l "release" then inr (true, "release")
    else if String.eqb l "profiling" then inr (true, "profiling")
    else inl (Thrown (profileMessage v)).
Proof. intros H. unfold buildMode. rewrite H. reflexivity. Qed.

Lemma buildMode_nodeEnv (v : string) :
  WASM_PACK_PROFILE w = None -> NODE_ENV w = Some v ->
  buildMode w =
    let l := JsString.toLowerCase v in
    if String.eqb l "dev" || String.eqb l "development" then inr (false, "dev")
    else inr (true, "release").
Proof.
  intros H1 H2. unfold buildMode. rewrite H1, H2. simpl.
  destruct (_ || _); [reflexivity|]. destruct (_ || _); reflexivity.
Qed.

Lemma buildMode_default :
  WASM_PACK_PROFILE w = None -> NODE_ENV w = None ->
  buildMode w = inr (true, "release").
Proof. intros H1 H2. unfold buildMode. now rewrite H1, H2. Qed.

(** The three fields returned by [buildOpts] are those of one of three
    rows, picked by the mode. *)
Lemma buildOpts_of_mode (release : bool) (profile : string) :
  buildMode w = inr (release, profile) ->
  buildOpts w =
    inr {| cargoTargetDirName := if release then "release" else "debug";
           cargoProfile := if release then "--release" else "--debug";
           wasmPackProfile := profile |}.
Proof. intros H. unfold buildOpts. now rewrite H. Qed.

Lemma buildOpts_fails (e : exn) :
  buildMode w = inl e -> buildOpts w = inl e.
Proof. intros H. unfold buildOpts. now rewrite H. Qed.

Lemma buildOpts_ok_mode (opts : BuildOpts) :
  buildOpts w = inr opts ->
  exists release, buildMode w = inr (release, wasmPackProfile opts).
Proof.
  unfold buildOpts. destruct (buildMode w) as [e | [r p]]; [discriminate|].
  intros H. injection H as <-. now exists r.
Qed.

(** The resolved profile is one of the three wasm-pack knows, and a
    non-release mode goes with the dev profile only. *)
Lemma buildMode_consistent (release : bool) (profile : string) :
  buildMode w = inr (release, profile) ->
  (release = false /\ profile = "dev")
  \/ (release = true /\ (profile = "release" \/ profile = "profiling")).
Proof.
  unfold buildMode.
  destruct (WASM_PACK_PROFILE w) as [v|]; [|destruct (NODE_ENV w) as [v|]];
    repeat match goal with
      | |- context [if ?b then _ else _] => destruct b
      end; intros H; inversion H; auto.
Qed.

End ModeResolver.

(* ================================================================== *)
(** ** Properties: how the methods run *)
(* ================================================================== *)

Section Runs.

Context {path : PathModule}.
Variable w : World.
Variable this : Asset.

Lemma exec_run cmd args opts s :
  exec w cmd args opts s =
    (execFile w (log s) cmd args opts, logged (Exec cmd args opts) s).
Proof. reflexivity. Qed.

Lemma cmdExists_run cmd s :
  cmdExists w cmd s = (inr (commandExists w cmd), logged (Probe cmd) s).
Proof. reflexivity. Qed.

Lemma log_logged e s : log (logged e s) = (log s ++ [e])%list.
Proof. reflexivity. Qed.

(** The check reads the manifest and nothing else: it leaves the state as
    it is, and on an object it decides [declaresCdylib]. *)
Lemma crateTypeCheck_run fields s :
  crateTypeCheck (VObj fields) s =
    (if declaresCdylib (VObj fields) then inr (VObj fields)
     else inl (Thrown crateTypeMessage), s).
Proof.
  unfold crateTypeCheck, declaresCdylib, crateTypeOf, libSection, bind, lift, throw, ret.
  simpl.
  destruct (JsValue.lookup "lib" fields) as [ | | b | n | x | items | lf ]; simpl;
    try reflexivity.
  - destruct b; reflexivity.
  - destruct (negb (n =? 0)%Z); reflexivity.
  - destruct (negb (String.eqb x "")); reflexivity.
  - destruct (JsValue.lookup "crate-type" lf); simpl; try reflexivity.
    destruct (JsValue.includesStr "cdylib" items); reflexivity.
Qed.

Lemma crateTypeCheck_state cargoConfig s :
  snd (crateTypeCheck cargoConfig s) = s.
Proof.
  unfold crateTypeCheck, bind, lift, throw, ret.
  destruct (JsValue.getProp cargoConfig "lib") as [e | lib]; simpl; [reflexivity|].
  destruct (negb (JsValue.truthy lib)); simpl; [reflexivity|].
  destruct (JsValue.getProp lib "crate-type") as [e | ct]; simpl; [reflexivity|].
  destruct ct; try reflexivity.
  destruct (negb _); reflexivity.
Qed.

Lemma wasmPackBuild_run cargoConfig cargoDir_ has_deps s :
  wasmPackBuild w this cargoConfig cargoDir_ has_deps s =
    match buildOpts w with
    | inl e => (inl e, logged helpCall s)
    | inr opts =>
        let s2 := logged (packCall w this (log s) cargoDir_ has_deps (wasmPackProfile opts))
                         (logged helpCall s) in
        match execFile w (log s ++ [helpCall])%list "wasm-pack"
                       (wasmPackArgs (helpProbe w (log s)) has_deps (isNode this)
                                     (wasmPackProfile opts))
                       (inDir cargoDir_) with
        | inl e => (inl e, s2)
        | inr _ =>
            match crateName cargoConfig with
            | inl e => (inl e, s2)
            | inr n =>
                (inr {| outDir := join [cargoDir_; "pkg"]; rustName := n;
                        cargoDir := cargoDir_ |}, s2)
            end
        end
    end.
Proof.
  unfold wasmPackBuild, packCall, helpProbe, helpCall, bind, tryCatch, lift, ret.
  rewrite exec_run.
  destruct (execFile w (log s) "wasm-pack" ["build"; "--help"] noOptions) as [e | out];
    simpl;
    (destruct (buildOpts w) as [e' | opts]; simpl; [reflexivity|]);
    destruct (execFile w _ "wasm-pack" _ _); simpl; try reflexivity;
    destruct (crateName cargoConfig); reflexivity.
Qed.

(** The argument list, spelt out. *)
Lemma wasmPackArgs_shape hasBuildCommand has_deps node profile :
  wasmPackArgs hasBuildCommand has_deps node profile =
    ([if hasBuildCommand then "build" else "init"]
     ++ (if has_deps then ["-m"; "no-install"] else [])
     ++ ["--target"; if node then "nodejs" else "bundler"]
     ++ [("--" ++ profile)%string])%list.
Proof. destruct hasBuildCommand, has_deps, node; reflexivity. Qed.

Lemma wasmPostProcess_run r s opts :
  buildOpts w = inr opts ->
  wasmPostProcess w this r s =
    let s1 :=
      logged (metadataCall (cargoDir r))
        {| jsPath := Some (getPath this (outDir r) (rustName r ++ ".js"));
           jsAltPath := Some (getPath this (outDir r) (rustName r ++ "_bg.js"));
           wasmPath := Some (getPath this (outDir r) (rustName r ++ "_bg.wasm"));
           depsPath := depsPath s; log := log s |} in
    match execFile w (log s) "cargo" ["metadata"; "--format-version"; "1"]
                   {| cwd := Some (cargoDir r); maxBuffer := Some (1024 * 1024)%N |} with
    | inl e => (inl e, s1)
    | inr stdout =>
        match targetDirectory w stdout with
        | inl e => (inl e, s1)
        | inr d =>
            (inr tt,
             {| jsPath := jsPath s1; jsAltPath := jsAltPath s1; wasmPath := wasmPath s1;
                depsPath := Some (join [d; RUST_TARGET; cargoTargetDirName opts;
                                        rustName r ++ ".d"]);
                log := log s1 |})
        end
    end.
Proof.
  intros H. unfold wasmPostProcess, bind, lift, setOutputPaths, setDepsPath.
  rewrite H. rewrite exec_run. cbn [log].
  destruct (execFile w (log s) "cargo" _ _) as [e | out]; [reflexivity|].
  destruct (targetDirectory w out); reflexivity.
Qed.

Lemma wasmPostProcess_bad_profile r s e :
  buildOpts w = inl e -> wasmPostProcess w this r s = (inl e, s).
Proof. intros H. unfold wasmPostProcess, bind, lift. now rewrite H. Qed.

(** [rawBuild] is its [try] block under one handler. *)
Lemma rawBuild_error cargoConfig cargoDir_ s e s' :
  rawBuild w this cargoConfig cargoDir_ s = (inl e, s') ->
  e = Thrown buildFailedMessage.
Proof.
  unfold rawBuild, tryCatch.
  match goal with |- context [match ?m s with _ => _ end] => destruct (m s) as [[e0 | r] s0] end.
  - unfold throw. intros H. now inversion H.
  - discriminate.
Qed.

(** A strategy that succeeded has resolved the build options. *)
Lemma wasmPackBuild_ok_opts cargoConfig cargoDir_ has_deps s r s' :
  wasmPackBuild w this cargoConfig cargoDir_ has_deps s = (inr r, s') ->
  exists opts, buildOpts w = inr opts.
Proof.
  rewrite wasmPackBuild_run. destruct (buildOpts w) as [e | opts]; [discriminate|].
  intros _. now exists opts.
Qed.

Lemma rawBuild_ok_opts cargoConfig cargoDir_ s r s' :
  rawBuild w this cargoConfig cargoDir_ s = (inr r, s') ->
  exists opts, buildOpts w = inr opts.
Proof.
  unfold rawBuild, rawBuildSteps, tryCatch, bind, lift, throw.
  destruct (buildOpts w) as [e | opts]; [discriminate|].
  intros _. now exists opts.
Qed.

Lemma build_ok_opts cargoConfig cargoDir_ hp hc hb s r s' :
  build w this cargoConfig cargoDir_ hp hc hb s = (inr r, s') ->
  exists opts, buildOpts w = inr opts.
Proof.
  unfold build. destruct hp; [apply wasmPackBuild_ok_opts|].
  destruct hc; [|discriminate]. destruct hb; [apply rawBuild_ok_opts|discriminate].
Qed.

End Runs.

(* ================================================================== *)
(** ** Properties: [parse] on a crate *)
(* ================================================================== *)

Section Parse.

Context {path : PathModule}.
Variable w : World.
Variable this : Asset.

Lemma log_afterProbes s : log (afterProbes s) = (log s ++ probes)%list.
Proof. unfold afterProbes. simpl. now rewrite <- !app_assoc. Qed.

Lemma parse_crate code fields file s :
  isTargetRust this = true ->
  getConfig w (name this) ["Cargo.toml"] = inr (VObj fields) ->
  resolve w (name this) ["Cargo.toml"] = Some file ->
  parse w this code s =
    if declaresCdylib (VObj fields) then
      match build w this (VObj fields) (dirname file)
                  (commandExists w "wasm-pack") (commandExists w "cargo")
                  (commandExists w "wasm-bindgen") (afterProbes s) with
      | (inl e, s') => (inl e, s')
      | (inr r, s') =>
          match wasmPostProcess w this r s' with
          | (inl e, s'') => (inl e, s'')
          | (inr _, s'') => (inr VUndefined, s'')
          end
      end
    else (inl (Thrown crateTypeMessage), s).
Proof.
  intros Hr Hc Hf. unfold parse. rewrite Hr, Hc, Hf. simpl.
  unfold bind at 1. unfold lift at 1. unfold bind at 1. unfold ret at 1.
  unfold bind at 1. rewrite crateTypeCheck_run.
  destruct (declaresCdylib (VObj fields)); [|reflexivity].
  unfold bind, ret. rewrite !cmdExists_run. fold (afterProbes s).
  destruct (build _ _ _ _ _ _ _ _) as [[e | r] s']; [reflexivity|].
  destruct (wasmPostProcess w this r s') as [[e | []] s'']; reflexivity.
Qed.

Lemma parse_not_crate code s :
  isTargetRust this = false ->
  parse w this code s =
    if isNormalTOML this then (tomlParse w code, s)
    else (inl (Thrown (notRustMessage (name this))), s).
Proof. intros H. unfold parse. rewrite H. simpl. now destruct (isNormalTOML this). Qed.

Lemma generate_not_crate s :
  isTargetRust this = false ->
  generate w this s = (inl (Thrown (notRustMessage (name this))), s).
Proof. intros H. unfold generate. now rewrite H. Qed.

(** A manifest without a [lib] section, or whose [crate-type] is no list, or
    whose list lacks [cdylib], does not declare [cdylib]. *)
Lemma not_cdylib cargoConfig :
  JsValue.truthy (libSection cargoConfig) = false
  \/ JsValue.isArray (crateTypeOf cargoConfig) = false
  \/ (exists items, crateTypeOf cargoConfig = VArr items
                    /\ JsValue.includesStr "cdylib" items = false) ->
  declaresCdylib cargoConfig = false.
Proof.
  unfold declaresCdylib. intros [H | [H | (items & H1 & H2)]].
  - now rewrite H.
  - destruct (crateTypeOf cargoConfig); try discriminate; apply andb_false_r.
  - rewrite H1, H2. apply andb_false_r.
Qed.

Lemma crateTypeCheck_passes cargoConfig s r s' :
  crateTypeCheck cargoConfig s = (inr r, s') -> r = cargoConfig /\ s' = s.
Proof.
  unfold crateTypeCheck, bind, lift, throw, ret.
  destruct (JsValue.getProp cargoConfig "lib") as [e | lib]; [discriminate|].
  destruct (negb (JsValue.truthy lib)); [discriminate|].
  destruct (JsValue.getProp lib "crate-type") as [e | ct]; [discriminate|].
  destruct ct; try discriminate.
  destruct (negb _); [discriminate|].
  intros H. inversion H. auto.
Qed.

End Parse.

(* ================================================================== *)
(** ** The Mode Resolver: the two overrides *)
(* ================================================================== *)

(** [toLowerCase] is what makes the comparison blind to case. *)
Example toLowerCase_examples :
  JsString.toLowerCase "DeBuG" = "debug"
  /\ JsString.toLowerCase "PROFILING" = "profiling"
  /\ JsString.toLowerCase "Production" = "production"
  /\ JsString.toLowerCase "release" = "release".
Proof. repeat split; reflexivity. Qed.

Lemma toLowerCase_idempotent (s : string) :
  JsString.toLowerCase (JsString.toLowerCase s) = JsString.toLowerCase s.
Proof.
  induction s as [|c s IH]; [reflexivity|]. simpl. rewrite IH. f_equal.
  destruct c as [[] [] [] [] [] [] [] []]; reflexivity.
Qed.

(** In Strategy B the resolver runs inside the [try] block, so the handler
    replaces whatever it throws. *)
Lemma rawBuild_hides_profile_error
      (path : PathModule) (w : World) (this : Asset) cargoConfig cargoDir_ s e :
  buildOpts w = inl e ->
  rawBuild w this cargoConfig cargoDir_ s = (inl (Thrown buildFailedMessage), s).
Proof.
  intros H. unfold rawBuild, rawBuildSteps, tryCatch, bind, lift, throw. now rewrite H.
Qed.

(** C3, as amended: with the profile override [WASM_PACK_PROFILE] set to [v],
    the resolver maps the lower-cased value [dev] or [debug] to non-release
    mode and the dev profile, [release] to release mode and the release
    profile, [profiling] to release mode and the profiling profile, and
    [buildOpts] returns the matching options ([debug] and [--debug] for the
    first, [release] and [--release] for the other two); on any other value
    [buildOpts] throws a string that starts with [v] as it was given.  The
    resolver itself spawns nothing, but Strategy A calls it only after its
    probe [wasm-pack build --help] has run: the error then ends
    [wasmPackBuild] with that one call made and no build command run. *)
Theorem profile_override_resolution :
  forall (path : PathModule) (w : World) (this : Asset) (v : string),
    WASM_PACK_PROFILE w = Some v ->
    (JsString.toLowerCase v = "dev" \/ JsString.toLowerCase v = "debug" ->
       buildMode w = inr (false, "dev")
       /\ buildOpts w =
            inr {| cargoTargetDirName := "debug"; cargoProfile := "--debug";
                   wasmPackProfile := "dev" |})
    /\ (JsString.toLowerCase v = "release" ->
        buildMode w = inr (true, "release")
        /\ buildOpts w =
             inr {| cargoTargetDirName := "release"; cargoProfile := "--release";
                    wasmPackProfile := "release" |})
    /\ (JsString.toLowerCase v = "profiling" ->
        buildMode w = inr (true, "profiling")
        /\ buildOpts w =
             inr {| cargoTargetDirName := "release"; cargoProfile := "--release";
                    wasmPackProfile := "profiling" |})
    /\ (JsString.toLowerCase v <> "dev" -> JsString.toLowerCase v <> "debug" ->
        JsString.toLowerCase v <> "release" -> JsString.toLowerCase v <> "profiling" ->
        buildOpts w =
          inl (Thrown (v ++ " (set by WASM_PACK_PROFILE) is not a recognized wasm-pack build profile"))
        /\ forall cargoConfig cargoDir_ has_deps s,
             wasmPackBuild w this cargoConfig cargoDir_ has_deps s =
               (inl (Thrown (profileMessage v)),
                logged (Exec "wasm-pack" ["build"; "--help"] noOptions) s)).
Proof.
  intros path w this v H. split; [|split; [|split]].
  - intros E.
    assert (M : buildMode w = inr (false, "dev")).
    { rewrite (buildMode_profile w v H). cbv zeta. destruct E as [-> | ->]; reflexivity. }
    split; [exact M | exact (buildOpts_of_mode w _ _ M)].
  - intros E.
    assert (M : buildMode w = inr (true, "release")).
    { rewrite (buildMode_profile w v H). cbv zeta. rewrite E. reflexivity. }
    split; [exact M | exact (buildOpts_of_mode w _ _ M)].
  - intros E.
    assert (M : buildMode w = inr (true, "profiling")).
    { rewrite (buildMode_profile w v H). cbv zeta. rewrite E. reflexivity. }
    split; [exact M | exact (buildOpts_of_mode w _ _ M)].
  - intros N1 N2 N3 N4.
    assert (E : buildOpts w = inl (Thrown (profileMessage v))).
    { apply buildOpts_fails. rewrite (buildMode_profile w v H). cbv zeta.
      repeat match goal with
        | |- context [String.eqb ?a ?b] => destruct (String.eqb_spec a b); [contradiction|]
        end.
      reflexivity. }
    split; [exact E|].
    intros cfg dir hd s. rewrite wasmPackBuild_run. now rewrite E.
Qed.

(** The theorem at [WASM_PACK_PROFILE=Fast], which the resolver refuses, and
    at [WASM_PACK_PROFILE=DeBuG], which it maps to the dev row. *)
Lemma profile_override_resolution_witness :
  buildOpts (Demo.world (Some "Fast") None true true true "") =
    inl (Thrown "Fast (set by WASM_PACK_PROFILE) is not a recognized wasm-pack build profile")
  /\ buildOpts (Demo.world (Some "DeBuG") (Some "production") true true true "") =
       inr {| cargoTargetDirName := "debug"; cargoProfile := "--debug";
              wasmPackProfile := "dev" |}.
Proof.
  split.
  - destruct (profile_override_resolution SimplePath.posix
                (Demo.world (Some "Fast") None true true true "") Demo.libRs "Fast" eq_refl)
      as (_ & _ & _ & H).
    destruct H as [H _]; [discriminate | discriminate | discriminate | discriminate |].
    exact H.
  - destruct (profile_override_resolution SimplePath.posix
                (Demo.world (Some "DeBuG") (Some "production") true true true "")
                Demo.libRs "DeBuG" eq_refl) as (H & _).
    destruct H as [_ H]; [right; reflexivity|]. exact H.
Defined.

(** C3, as the claim has it, fails: with [WASM_PACK_PROFILE=fast] on a host
    with wasm-pack, [parse] does end in the error that names [fast], but only
    after the subprocess [wasm-pack build --help] has run. *)
Lemma profile_error_follows_a_subprocess :
  outcome (@parse SimplePath.posix (Demo.world (Some "fast") None true true true "")
                  Demo.libRs "") =
    inl (Thrown "fast (set by WASM_PACK_PROFILE) is not a recognized wasm-pack build profile")
  /\ calls (@parse SimplePath.posix (Demo.world (Some "fast") None true true true "")
                   Demo.libRs "") =
       [Probe "wasm-pack"; Probe "cargo"; Probe "wasm-bindgen";
        Exec "wasm-pack" ["build"; "--help"] {| cwd := None; maxBuffer := None |}]
  /\ ~ (filter isExec
          (calls (@parse SimplePath.posix (Demo.world (Some "fast") None true true true "")
                         Demo.libRs "")) = []).
Proof. repeat split; try reflexivity. vm_compute. discriminate. Qed.

(** C4: with no profile override, the general override [NODE_ENV] decides:
    lower-cased [dev] or [development] give non-release mode and the dev
    profile, [release] or [production] give release mode and the release
    profile, and so does every other value, none of which makes the resolver
    throw; with neither override set the resolver gives release mode and the
    release profile.  In each case [buildOpts] returns the matching options:
    [debug], [--debug] and [dev] for non-release, [release], [--release] and
    [release] for release. *)
Theorem mode_override_resolution :
  forall (w : World),
    WASM_PACK_PROFILE w = None ->
    (forall v, NODE_ENV w = Some v ->
       (JsString.toLowerCase v = "dev" \/ JsString.toLowerCase v = "development" ->
          buildMode w = inr (false, "dev")
          /\ buildOpts w =
               inr {| cargoTargetDirName := "debug"; cargoProfile := "--debug";
                      wasmPackProfile := "dev" |})
       /\ (JsString.toLowerCase v = "release" \/ JsString.toLowerCase v = "production" ->
           buildMode w = inr (true, "release")
           /\ buildOpts w =
                inr {| cargoTargetDirName := "release"; cargoProfile := "--release";
                       wasmPackProfile := "release" |})
       /\ (JsString.toLowerCase v <> "dev" -> JsString.toLowerCase v <> "development" ->
           buildMode w = inr (true, "release")
           /\ buildOpts w =
                inr {| cargoTargetDirName := "release"; cargoProfile := "--release";
                       wasmPackProfile := "release" |}))
    /\ (NODE_ENV w = None ->
        buildMode w = inr (true, "release")
        /\ buildOpts w =
             inr {| cargoTargetDirName := "release"; cargoProfile := "--release";
                    wasmPackProfile := "release" |})
    /\ (exists opts, buildOpts w = inr opts).
Proof.
  intros w H. split; [|split].
  - intros v N. split; [|split].
    + intros E.
      assert (M : buildMode w = inr (false, "dev")).
      { rewrite (buildMode_nodeEnv w v H N). destruct E as [-> | ->]; reflexivity. }
      split; [exact M | exact (buildOpts_of_mode w _ _ M)].
    + intros E.
      assert (M : buildMode w = inr (true, "release")).
      { rewrite (buildMode_nodeEnv w v H N). destruct E as [-> | ->]; reflexivity. }
      split; [exact M | exact (buildOpts_of_mode w _ _ M)].
    + intros N1 N2.
      assert (M : buildMode w = inr (true, "release")).
      { rewrite (buildMode_nodeEnv w v H N). cbv zeta.
        destruct (String.eqb_spec (JsString.toLowerCase v) "dev"); [contradiction|].
        destruct (String.eqb_spec (JsString.toLowerCase v) "development"); [contradiction|].
        reflexivity. }
      split; [exact M | exact (buildOpts_of_mode w _ _ M)].
  - intros N. pose proof (buildMode_default w H N) as M.
    split; [exact M | exact (buildOpts_of_mode w _ _ M)].
  - destruct (NODE_ENV w) as [v|] eqn:E.
    + pose proof (buildMode_nodeEnv w v H E) as B. cbv zeta in B.
      destruct (_ || _) in B; eexists; apply (buildOpts_of_mode w _ _ B).
    + eexists. apply (buildOpts_of_mode w _ _ (buildMode_default w H E)).
Qed.

(** The theorem at [NODE_ENV=Staging], a value the resolver does not know,
    and at [NODE_ENV=Development]. *)
Lemma mode_override_resolution_witness :
  buildOpts (Demo.world None (Some "Staging") true true true "") =
    inr {| cargoTargetDirName := "release"; cargoProfile := "--release";
           wasmPackProfile := "release" |}
  /\ buildOpts (Demo.world None (Some "Development") true true true "") =
       inr {| cargoTargetDirName := "debug"; cargoProfile := "--debug";
              wasmPackProfile := "dev" |}.
Proof.
  split.
  - destruct (mode_override_resolution
                (Demo.world None (Some "Staging") true true true "") eq_refl) as (H & _ & _).
    destruct (H "Staging" eq_refl) as (_ & _ & H3).
    destruct H3 as [_ H3]; [discriminate | discriminate |]. exact H3.
  - destruct (mode_override_resolution
                (Demo.world None (Some "Development") true true true "") eq_refl)
      as (H & _ & _).
    destruct (H "Development" eq_refl) as (H1 & _ & _).
    destruct H1 as [_ H1]; [right; reflexivity|]. exact H1.
Defined.

(* ================================================================== *)
(** ** The crate-type check and the choice of a strategy *)
(* ================================================================== *)

(** C8: when the parsed manifest has no [lib] section, or the [crate-type]
    of its [lib] is not a list, or that list does not hold [cdylib], [parse]
    fails with the crate-type error and has made no call at all by then: no
    probe of a tool and no subprocess; and the check hands back, unchanged,
    a manifest that passes it. *)
Theorem invalid_manifest_fails_first :
  forall (path : PathModule) (w : World) (this : Asset) (code : string)
         (fields : list (string * value)) (file : string),
    isTargetRust this = true ->
    getConfig w (name this) ["Cargo.toml"] = inr (VObj fields) ->
    resolve w (name this) ["Cargo.toml"] = Some file ->
    JsValue.truthy (libSection (VObj fields)) = false
    \/ JsValue.isArray (crateTypeOf (VObj fields)) = false
    \/ (exists items, crateTypeOf (VObj fields) = VArr items
                      /\ JsValue.includesStr "cdylib" items = false) ->
    outcome (parse w this code) =
      inl (Thrown "The `crate-type` in Cargo.toml should be `cdylib`")
    /\ calls (parse w this code) = []
    /\ (forall fields' s,
          declaresCdylib (VObj fields') = true ->
          crateTypeCheck (VObj fields') s = (inr (VObj fields'), s)).
Proof.
  intros path w this code fields file Hr Hc Hf Hbad.
  unfold outcome, calls. rewrite (parse_crate w this code fields file _ Hr Hc Hf).
  rewrite (not_cdylib _ Hbad). repeat split.
  intros fields' s H. rewrite crateTypeCheck_run. now rewrite H.
Qed.

(** The theorem on a crate whose manifest has no [lib] section, on a host
    that has every tool. *)
Lemma invalid_manifest_fails_first_witness :
  calls (@parse SimplePath.posix
           (Demo.withManifest Demo.binManifest (Demo.world None None true true true ""))
           Demo.libRs "") = [].
Proof.
  refine (proj1 (proj2 (invalid_manifest_fails_first SimplePath.posix
           (Demo.withManifest Demo.binManifest (Demo.world None None true true true ""))
           Demo.libRs "" _ "/proj/Cargo.toml" eq_refl eq_refl eq_refl _))).
  left. reflexivity.
Defined.

(** C5: the choice of a strategy is a function of the three probes.  With
    wasm-pack present Strategy A runs whatever the other two say: the first
    call after the probes is its [wasm-pack build --help].  With wasm-pack and
    wasm-bindgen absent and cargo present, [parse] fails with the message that
    asks for wasm-pack; with wasm-pack and cargo absent it fails with the
    message that asks for cargo; in both failures the three probes are the
    only calls made, so no subprocess was started. *)
Theorem strategy_selection :
  forall (path : PathModule) (w : World) (this : Asset) (code : string)
         (fields : list (string * value)) (file : string),
    isTargetRust this = true ->
    getConfig w (name this) ["Cargo.toml"] = inr (VObj fields) ->
    resolve w (name this) ["Cargo.toml"] = Some file ->
    declaresCdylib (VObj fields) = true ->
    (commandExists w "wasm-pack" = true ->
       exists rest,
         calls (parse w this code) =
           ([Probe "wasm-pack"; Probe "cargo"; Probe "wasm-bindgen";
             Exec "wasm-pack" ["build"; "--help"] noOptions] ++ rest)%list)
    /\ (commandExists w "wasm-pack" = false -> commandExists w "cargo" = true ->
        commandExists w "wasm-bindgen" = false ->
        outcome (parse w this code) = inl (Thrown "Please install wasm-pack")
        /\ calls (parse w this code) =
             [Probe "wasm-pack"; Probe "cargo"; Probe "wasm-bindgen"])
    /\ (commandExists w "wasm-pack" = false -> commandExists w "cargo" = false ->
        outcome (parse w this code) = inl (Thrown "Please install Cargo for Rust")
        /\ calls (parse w this code) =
             [Probe "wasm-pack"; Probe "cargo"; Probe "wasm-bindgen"])
    /\ (forall cargoConfig cargoDir_ has_cargo has_wasmbindgen,
          build w this cargoConfig cargoDir_ true has_cargo has_wasmbindgen =
            wasmPackBuild w this cargoConfig cargoDir_ (has_cargo && has_wasmbindgen))
    /\ (forall cargoConfig cargoDir_,
          build w this cargoConfig cargoDir_ false true true =
            rawBuild w this cargoConfig cargoDir_).
Proof.
  intros path w this code fields file Hr Hc Hf Hok.
  unfold outcome, calls. rewrite (parse_crate w this code fields file _ Hr Hc Hf), Hok.
  repeat split.
  - intros Hp. rewrite Hp. unfold build. rewrite wasmPackBuild_run.
    destruct (buildOpts w) as [e | opts] eqn:Eo.
    + exists []. reflexivity.
    + cbv zeta.
      destruct (execFile w _ "wasm-pack" _ _) as [e | out].
      * eexists. cbn [snd log logged afterProbes initial app]. reflexivity.
      * destruct (crateName (VObj fields)) as [e | n].
        -- eexists. cbn [snd log logged afterProbes initial app]. reflexivity.
        -- rewrite (wasmPostProcess_run w this _ _ opts Eo). cbv zeta.
           destruct (execFile w _ "cargo" _ _) as [e | out'].
           ++ eexists. cbn [snd log logged afterProbes initial app]. reflexivity.
           ++ destruct (targetDirectory w out');
                eexists; cbn [snd log logged afterProbes initial app]; reflexivity.
  - rewrite H, H0, H1. reflexivity.
  - rewrite H, H0, H1. reflexivity.
  - rewrite H, H0. reflexivity.
  - rewrite H, H0. reflexivity.
Qed.

(** The theorem on the host of the claim: cargo only. *)
Lemma strategy_selection_witness :
  outcome (@parse SimplePath.posix (Demo.world None None false true false "") Demo.libRs "")
    = inl (Thrown "Please install wasm-pack")
  /\ calls (@parse SimplePath.posix (Demo.world None None false true false "") Demo.libRs "")
     = [Probe "wasm-pack"; Probe "cargo"; Probe "wasm-bindgen"].
Proof.
  destruct (strategy_selection SimplePath.posix (Demo.world None None false true false "")
              Demo.libRs "" _ "/proj/Cargo.toml" eq_refl eq_refl eq_refl eq_refl)
    as (_ & H & _).
  apply H; reflexivity.
Defined.

(* ================================================================== *)
(** ** Strategy A: the wasm-pack command *)
(* ================================================================== *)

(** C6: once the build options are resolved, Strategy A makes two calls: the
    probe [wasm-pack build --help], and wasm-pack in the crate directory with
    the subcommand [build] when the probe succeeded and [init] when it
    failed, then [-m no-install] exactly when cargo and wasm-bindgen are both
    present, then [--target nodejs] when the bundle target is [node] and
    [--target bundler] otherwise, and last the flag of the resolved profile,
    which is one of [--dev], [--release] and [--profiling]. *)
Theorem wasm_pack_command :
  forall (path : PathModule) (w : World) (this : Asset) (cargoConfig : value)
         (cargoDir_ : string) (has_cargo has_wasmbindgen : bool) (s : AssetState)
         (opts : BuildOpts),
    buildOpts w = inr opts ->
    log (snd (build w this cargoConfig cargoDir_ true has_cargo has_wasmbindgen s)) =
      (log s ++
       [Exec "wasm-pack" ["build"; "--help"] {| cwd := None; maxBuffer := None |};
        Exec "wasm-pack"
             ([match execFile w (log s) "wasm-pack" ["build"; "--help"]
                              {| cwd := None; maxBuffer := None |} with
               | inr _ => "build"
               | inl _ => "init"
               end]
              ++ (if has_cargo && has_wasmbindgen then ["-m"; "no-install"] else [])
              ++ ["--target";
                  if String.eqb (target (options this)) "node" then "nodejs" else "bundler"]
              ++ [("--" ++ wasmPackProfile opts)%string])
             {| cwd := Some cargoDir_; maxBuffer := None |}])%list
    /\ (wasmPackProfile opts = "dev" \/ wasmPackProfile opts = "release"
        \/ wasmPackProfile opts = "profiling").
Proof.
  intros path w this cfg dir hc hb s opts Ho. split.
  - unfold build. rewrite wasmPackBuild_run, Ho. cbv zeta.
    assert (L : log (logged (packCall w this (log s) dir (hc && hb) (wasmPackProfile opts))
                            (logged helpCall s)) =
                (log s ++ [helpCall; packCall w this (log s) dir (hc && hb)
                                              (wasmPackProfile opts)])%list).
    { simpl. now rewrite <- app_assoc. }
    assert (P : packCall w this (log s) dir (hc && hb) (wasmPackProfile opts) =
                Exec "wasm-pack"
                  ([match execFile w (log s) "wasm-pack" ["build"; "--help"]
                                   {| cwd := None; maxBuffer := None |} with
                    | inr _ => "build"
                    | inl _ => "init"
                    end]
                   ++ (if hc && hb then ["-m"; "no-install"] else [])
                   ++ ["--target";
                       if String.eqb (target (options this)) "node"
                       then "nodejs" else "bundler"]
                   ++ [("--" ++ wasmPackProfile opts)%string])%list
                  {| cwd := Some dir; maxBuffer := None |}).
    { unfold packCall. rewrite wasmPackArgs_shape. unfold helpProbe, noOptions, isNode, inDir.
      destruct (execFile w (log s) "wasm-pack" _ _); reflexivity. }
    destruct (execFile w (log s ++ [helpCall])%list _ _ _) as [e | out];
      [|destruct (crateName cfg)]; cbn [snd]; rewrite L, P; reflexivity.
  - destruct (buildOpts_ok_mode w opts Ho) as (r & Hm).
    destruct (buildMode_consistent w r _ Hm) as [[_ ->] | [_ [-> | ->]]]; auto.
Qed.

(** The theorem on a host with every tool, for a bundle that targets node. *)
Lemma wasm_pack_command_witness :
  log (snd (@build SimplePath.posix (Demo.world None (Some "development") true true true "")
              {| name := "/proj/Cargo.toml"; options := Demo.node |}
              Demo.manifest "/proj" true true true initial)) =
    [Exec "wasm-pack" ["build"; "--help"] {| cwd := None; maxBuffer := None |};
     Exec "wasm-pack" ["build"; "-m"; "no-install"; "--target"; "nodejs"; "--dev"]
          {| cwd := Some "/proj"; maxBuffer := None |}].
Proof.
  exact (proj1 (wasm_pack_command SimplePath.posix
                  (Demo.world None (Some "development") true true true "")
                  {| name := "/proj/Cargo.toml"; options := Demo.node |}
                  Demo.manifest "/proj" true true initial _ eq_refl)).
Defined.

(* ================================================================== *)
(** ** Strategy B: the fallback *)
(* ================================================================== *)

Section Fallback.

Context {path : PathModule}.
Variable w : World.
Variable this : Asset.
Variable cargoConfig : value.
Variable cargoDir_ : string.

Lemma rawBuild_catch s :
  rawBuild w this cargoConfig cargoDir_ s =
    match rawBuildSteps w this cargoConfig cargoDir_ s with
    | (inr r, s') => (inr r, s')
    | (inl _, s') => (inl (Thrown buildFailedMessage), s')
    end.
Proof. reflexivity. Qed.

Lemma rawBuild_fails_when_steps_fail s e s' :
  rawBuildSteps w this cargoConfig cargoDir_ s = (inl e, s') ->
  rawBuild w this cargoConfig cargoDir_ s = (inl (Thrown buildFailedMessage), s').
Proof. intros H. rewrite rawBuild_catch. now rewrite H. Qed.

Lemma rawBuild_ok_dir s r s' :
  rawBuild w this cargoConfig cargoDir_ s = (inr r, s') -> cargoDir r = cargoDir_.
Proof.
  rewrite rawBuild_catch.
  unfold rawBuildSteps, bind, lift, ret.
  destruct (buildOpts w) as [e | opts]; [discriminate|].
  rewrite exec_run.
  destruct (execFile w (log s) "cargo" _ _) as [e | out]; [discriminate|].
  rewrite exec_run.
  destruct (execFile w _ "cargo" _ _) as [e | stdout]; [discriminate|].
  destruct (targetDirectory w stdout) as [e | d]; [discriminate|].
  destruct (crateName cargoConfig) as [e | n]; [discriminate|].
  rewrite exec_run.
  destruct (execFile w _ "wasm-bindgen" _ _) as [e | out']; [discriminate|].
  intros H. now inversion H.
Qed.

End Fallback.

(** C7: in the fallback strategy every failure ends in the one uniform
    error.  Whatever [rawBuild] throws is the string that asks for wasm-pack;
    and a failure of [cargo build], of [cargo metadata], of reading the target
    directory out of its output, or of [wasm-bindgen] each makes [rawBuild]
    throw it, whatever the reason [e] of the failure was. *)
Theorem fallback_uniform_error :
  forall (path : PathModule) (w : World) (this : Asset) (cargoConfig : value)
         (cargoDir_ : string) (s : AssetState),
    (forall e s', rawBuild w this cargoConfig cargoDir_ s = (inl e, s') ->
                  e = Thrown "Building failed... Please install wasm-pack and try again.")
    /\ (forall opts, buildOpts w = inr opts ->
        let cargoBuild := ["build"; "--target"; "wasm32-unknown-unknown"; cargoProfile opts] in
        let metadata := ["metadata"; "--format-version"; "1"] in
        let l1 := (log s ++ [Exec "cargo" cargoBuild (inDir cargoDir_)])%list in
        let l2 := (l1 ++ [Exec "cargo" metadata (inDir cargoDir_)])%list in
        (forall e, execFile w (log s) "cargo" cargoBuild (inDir cargoDir_) = inl e ->
           fst (rawBuild w this cargoConfig cargoDir_ s) = inl (Thrown buildFailedMessage))
        /\ (forall out e,
              execFile w (log s) "cargo" cargoBuild (inDir cargoDir_) = inr out ->
              execFile w l1 "cargo" metadata (inDir cargoDir_) = inl e ->
              fst (rawBuild w this cargoConfig cargoDir_ s) = inl (Thrown buildFailedMessage))
        /\ (forall out stdout e,
              execFile w (log s) "cargo" cargoBuild (inDir cargoDir_) = inr out ->
              execFile w l1 "cargo" metadata (inDir cargoDir_) = inr stdout ->
              targetDirectory w stdout = inl e ->
              fst (rawBuild w this cargoConfig cargoDir_ s) = inl (Thrown buildFailedMessage))
        /\ (forall out stdout dir n e,
              execFile w (log s) "cargo" cargoBuild (inDir cargoDir_) = inr out ->
              execFile w l1 "cargo" metadata (inDir cargoDir_) = inr stdout ->
              targetDirectory w stdout = inr dir ->
              crateName cargoConfig = inr n ->
              execFile w l2 "wasm-bindgen"
                       [join [join [dir; RUST_TARGET; dir]; n ++ ".wasm"];
                        "--out-dir"; join [dir; RUST_TARGET; dir];
                        "--target"; if isNode this then "nodejs" else "web"]
                       (inDir cargoDir_) = inl e ->
              fst (rawBuild w this cargoConfig cargoDir_ s) = inl (Thrown buildFailedMessage))).
Proof.
  intros path w this cfg dir s. split.
  - intros e s'. apply rawBuild_error.
  - intros opts Ho. cbv zeta.
    unfold rawBuild, rawBuildSteps, tryCatch, bind, lift, throw, ret. rewrite Ho.
    repeat split.
    + intros e H. unfold RUST_TARGET. rewrite exec_run, H. reflexivity.
    + intros out e H1 H2. unfold RUST_TARGET. rewrite exec_run, H1. rewrite exec_run.
      cbn [log logged]. rewrite H2. reflexivity.
    + intros out stdout e H1 H2 H3. unfold RUST_TARGET. rewrite exec_run, H1.
      rewrite exec_run. cbn [log logged]. rewrite H2, H3. reflexivity.
    + intros out stdout d n e H1 H2 H3 H4 H5. unfold RUST_TARGET in *.
      rewrite exec_run, H1. rewrite exec_run. cbn [log logged]. rewrite H2, H3, H4.
      rewrite exec_run. cbn [log logged]. rewrite H5. reflexivity.
Qed.

(** The theorem on a host whose [cargo build] stops with a compiler error:
    the reason is gone from what [rawBuild] throws. *)
Lemma fallback_uniform_error_witness :
  fst (@rawBuild SimplePath.posix
         (Demo.withExec Demo.failingCargoBuild (Demo.world None None false true true ""))
         Demo.libRs Demo.manifest "/proj" initial) =
    inl (Thrown "Building failed... Please install wasm-pack and try again.").
Proof.
  destruct (fallback_uniform_error SimplePath.posix
              (Demo.withExec Demo.failingCargoBuild (Demo.world None None false true true ""))
              Demo.libRs Demo.manifest "/proj" initial) as (_ & H).
  destruct (H _ eq_refl) as (H1 & _).
  exact (H1 (Rejected "error: could not compile `demo-crate`") eq_refl).
Defined.

(* ================================================================== *)
(** ** Output resolution: [cargo metadata] *)
(* ================================================================== *)



(* ================================================================== *)
(** ** Plain TOML files *)
(* ================================================================== *)

(** C10, as amended: for an asset with the extension [.toml] that is neither
    named [Cargo.toml] nor a [.rs] file, [parse] is the TOML parser on the
    code, no more: it returns the parsed value when the parser accepts the
    code, it throws what the parser throws when the parser refuses it, and it
    makes no call either way; and [generate] throws the string that says the
    file is no valid Rust file or Cargo.toml, so it never returns generated
    output. *)
Theorem plain_toml_never_generates :
  forall (path : PathModule) (w : World) (this : Asset) (code : string) (s : AssetState),
    isTargetRust this = false ->
    isNormalTOML this = true ->
    parse w this code s = (tomlParse w code, s)
    /\ (forall v, tomlParse w code = inr v -> parse w this code s = (inr v, s))
    /\ (forall e, tomlParse w code = inl e -> parse w this code s = (inl e, s))
    /\ generate w this s =
         (inl (Thrown (name this ++ " is not valid Rust file or Cargo.toml")), s)
    /\ (forall out s', generate w this s <> (inr out, s')).
Proof.
  intros path w this code s Hr Ht.
  rewrite (parse_not_crate w this code s Hr), Ht.
  rewrite (generate_not_crate w this s Hr).
  repeat split; try discriminate.
  - intros v ->. reflexivity.
  - intros e ->. reflexivity.
Qed.

(** The theorem on [/proj/settings.toml]. *)
Lemma plain_toml_never_generates_witness :
  @parse SimplePath.posix (Demo.world None None true true true "") Demo.settingsToml
         "debug = true" initial = (inr (VObj []), initial)
  /\ @generate SimplePath.posix (Demo.world None None true true true "") Demo.settingsToml
               initial =
       (inl (Thrown "/proj/settings.toml is not valid Rust file or Cargo.toml"), initial).
Proof.
  destruct (plain_toml_never_generates SimplePath.posix
              (Demo.world None None true true true "") Demo.settingsToml
              "debug = true" initial eq_refl eq_refl) as (H1 & _ & _ & H3 & _).
  split; [exact H1 | exact H3].
Defined.

(** C10, as the claim has it, fails: [/proj/settings.toml] is a [.toml] file
    that is no Rust target, and on the text [[profile], a table header left
    open, which the TOML parser refuses, [parse] does not succeed: it throws
    the parser's error. *)
Lemma plain_toml_parse_can_fail :
  @isTargetRust SimplePath.posix Demo.settingsToml = false
  /\ @isNormalTOML SimplePath.posix Demo.settingsToml = true
  /\ @parse SimplePath.posix
            (Demo.withToml Demo.strictToml (Demo.world None None true true true ""))
            Demo.settingsToml "[profile" initial =
       (inl (Rejected "TomlError: Unterminated table header"), initial)
  /\ ~ (exists v s',
          @parse SimplePath.posix
                 (Demo.withToml Demo.strictToml (Demo.world None None true true true ""))
                 Demo.settingsToml "[profile" initial = (inr v, s')).
Proof.
  repeat split. intros (v & s' & H). discriminate H.
Qed.

(* ================================================================== *)
(** ** Output paths *)
(* ================================================================== *)

Section ReplaceFirst.

Variables c d : ascii.
Hypothesis distinct : c <> d.

Lemma replaceFirst_char s :
  JsString.replaceFirst (String c "") (String d "") s =
    match s with
    | EmptyString => EmptyString
    | String x s' =>
        if Ascii.eqb c x then String d s'
        else String x (JsString.replaceFirst (String c "") (String d "") s')
    end.
Proof.
  destruct s as [|x s']; [reflexivity|].
  simpl. destruct (Ascii.eqb_spec c x) as [->|N].
  - destruct (ascii_dec x x); [|congruence]. now destruct s'.
  - destruct (ascii_dec c x); [congruence|]. reflexivity.
Qed.

(** One occurrence goes, the others stay. *)
Lemma count_replaceFirst s :
  JsString.count c (JsString.replaceFirst (String c "") (String d "") s) =
    pred (JsString.count c s).
Proof.
  induction s as [|x s IH]; [reflexivity|].
  rewrite replaceFirst_char. destruct (Ascii.eqb_spec c x) as [->|N].
  - simpl. rewrite Ascii.eqb_refl. destruct (Ascii.eqb_spec d x); [congruence|]. reflexivity.
  - simpl. destruct (Ascii.eqb_spec x c); [congruence|]. exact IH.
Qed.

Lemma replaceFirst_absent s :
  JsString.count c s = 0 ->
  JsString.replaceFirst (String c "") (String d "") s = s.
Proof.
  induction s as [|x s IH]; [reflexivity|].
  rewrite replaceFirst_char. simpl.
  destruct (Ascii.eqb_spec x c) as [->|N].
  - discriminate.
  - destruct (Ascii.eqb_spec c x); [congruence|]. simpl. intros H. now rewrite IH.
Qed.

Lemma head_replaceFirst s x :
  x <> c -> JsString.head s = Some x ->
  JsString.head (JsString.replaceFirst (String c "") (String d "") s) = Some x.
Proof.
  intros N. destruct s as [|y s]; [discriminate|].
  rewrite replaceFirst_char. simpl. intros H. injection H as ->.
  destruct (Ascii.eqb_spec c x); [congruence|]. reflexivity.
Qed.

End ReplaceFirst.

Lemma count_occurs c s : JsString.occurs c s = negb (JsString.count c s =? 0).
Proof.
  induction s as [|x s IH]; [reflexivity|].
  simpl. destruct (Ascii.eqb x c); [reflexivity|]. exact IH.
Qed.

Section OutputPaths.

Context {path : PathModule}.
Variable this : Asset.
Variables outDir_ relative_ : string.

Lemma getPath_steps :
  getPath this outDir_ relative_ =
    JsString.replaceFirst "\" "/" (dotted (relativeToAsset this outDir_ relative_)).
Proof. reflexivity. Qed.

Lemma head_dotted s : JsString.head (dotted s) = Some "."%char.
Proof.
  unfold dotted. destruct s as [|x s]; [reflexivity|]. simpl.
  destruct x as [[] [] [] [] [] [] [] []]; reflexivity.
Qed.

Lemma count_dotted s : JsString.count "\" (dotted s) = JsString.count "\" s.
Proof.
  unfold dotted. destruct s as [|x s]; [reflexivity|]. simpl JsString.head.
  destruct x as [[] [] [] [] [] [] [] []]; reflexivity.
Qed.

(** The path always opens with a dot. *)
Lemma getPath_dot : JsString.head (getPath this outDir_ relative_) = Some "."%char.
Proof.
  rewrite getPath_steps. apply head_replaceFirst; try discriminate. apply head_dotted.
Qed.

(** It holds one backslash less than the relative path. *)
Lemma getPath_backslashes :
  JsString.count "\" (getPath this outDir_ relative_) =
    pred (JsString.count "\" (relativeToAsset this outDir_ relative_)).
Proof.
  rewrite getPath_steps, count_replaceFirst by discriminate. now rewrite count_dotted.
Qed.

(** Where the host separates with slashes, the path is the relative path,
    with [./] in front unless it opens with a dot. *)
Lemma getPath_forward_slashes :
  JsString.occurs "\" (relativeToAsset this outDir_ relative_) = false ->
  getPath this outDir_ relative_ = dotted (relativeToAsset this outDir_ relative_)
  /\ JsString.occurs "\" (getPath this outDir_ relative_) = false.
Proof.
  intros H. rewrite count_occurs in H.
  assert (Z : JsString.count "\" (relativeToAsset this outDir_ relative_) = 0).
  { destruct (Nat.eqb_spec (JsString.count "\" (relativeToAsset this outDir_ relative_)) 0);
      [assumption | discriminate]. }
  split.
  - rewrite getPath_steps. apply replaceFirst_absent; try discriminate.
    now rewrite count_dotted.
  - rewrite count_occurs, getPath_backslashes, Z. reflexivity.
Qed.

(** Where the relative path holds two backslashes or more, one is left. *)
Lemma getPath_backslash_left :
  2 <= JsString.count "\" (relativeToAsset this outDir_ relative_) ->
  JsString.occurs "\" (getPath this outDir_ relative_) = true.
Proof.
  intros H. rewrite count_occurs, getPath_backslashes.
  destruct (JsString.count "\" (relativeToAsset this outDir_ relative_)) as [|[|k]];
    [lia | lia | reflexivity].
Qed.

End OutputPaths.

(** C2, on the code: on a host that separates with backslashes, for the
    asset [C:\proj\src\lib.rs] and the output directory [C:\proj\pkg], the
    three output paths are relative to the asset's directory and open with a
    dot, but only the first backslash has become a slash: the path of the
    binary is [../pkg\demo_crate_bg.wasm]. *)
Theorem output_path_keeps_backslash :
  let built := {| outDir := "C:\proj\pkg"; rustName := "demo_crate"; cargoDir := "C:\proj" |} in
  let after := snd (@wasmPostProcess SimplePath.win32
                      (Demo.world None None true true true "") Demo.winLibRs built initial) in
  @relative SimplePath.win32 (@dirname SimplePath.win32 (name Demo.winLibRs))
            (@join SimplePath.win32 ["C:\proj\pkg"; "demo_crate_bg.wasm"])
    = "..\pkg\demo_crate_bg.wasm"
  /\ jsPath after = Some "../pkg\demo_crate.js"
  /\ jsAltPath after = Some "../pkg\demo_crate_bg.js"
  /\ wasmPath after = Some "../pkg\demo_crate_bg.wasm"
  /\ JsString.occurs "\" (@getPath SimplePath.win32 Demo.winLibRs
                                   "C:\proj\pkg" "demo_crate_bg.wasm") = true.
Proof. repeat split; reflexivity. Qed.

(** On a host that separates with slashes the same build gives the paths of
    the specification. *)
Example output_paths_posix :
  let built := {| outDir := "/proj/pkg"; rustName := "demo_crate"; cargoDir := "/proj" |} in
  let after := snd (@wasmPostProcess SimplePath.posix
                      (Demo.world None None true true true "") Demo.libRs built initial) in
  jsPath after = Some "../pkg/demo_crate.js"
  /\ jsAltPath after = Some "../pkg/demo_crate_bg.js"
  /\ wasmPath after = Some "../pkg/demo_crate_bg.wasm"
  /\ depsPath after = Some "/proj/target/wasm32-unknown-unknown/release/demo_crate.d"
  /\ @getPath SimplePath.posix {| name := "/proj/Cargo.toml"; options := Demo.browser |}
              "/proj/pkg" "demo_crate.js" = "./pkg/demo_crate.js".
Proof. repeat split; reflexivity. Qed.

(* ================================================================== *)
(** ** Dependency extraction *)
(* ================================================================== *)

Section Dependencies.

Context {path : PathModule}.
Variable w : World.
Variable this : Asset.

Lemma loggedAll_nil s : loggedAll [] s = s.
Proof. destruct s. unfold loggedAll. simpl. now rewrite app_nil_r. Qed.

Lemma loggedAll_cons e l s : loggedAll (e :: l) s = loggedAll l (logged e s).
Proof. unfold loggedAll, logged. simpl. now rewrite <- app_assoc. Qed.

(** The loop adds, in order, every piece that is not the asset's name. *)
Lemma addDependencies_run deps s :
  addDependencies this deps s = (inr tt, loggedAll (dependencyCalls this deps) s).
Proof.
  revert s. induction deps as [|dep rest IH]; intros s.
  - simpl. unfold ret. now rewrite loggedAll_nil.
  - cbn [addDependencies]. unfold bind, dependencyCalls. cbn [filter].
    destruct (String.eqb dep (name this)); cbn [negb map].
    + unfold ret at 1. apply IH.
    + unfold record. rewrite IH. now rewrite loggedAll_cons.
Qed.

Lemma collectDependencies_run s file contents deps :
  isTargetRust this = true ->
  depsPath s = Some file ->
  readFile w file = inr contents ->
  depsOf contents = Some deps ->
  collectDependencies w this s =
    (inr VUndefined, loggedAll (ReadFile file :: dependencyCalls this deps) s).
Proof.
  intros Hr Hd Hf Hp. unfold collectDependencies. rewrite Hr. simpl.
  unfold bind, get, record, lift. rewrite Hd. cbn [depsPath logged].
  rewrite Hf, Hp. rewrite addDependencies_run. unfold ret. now rewrite loggedAll_cons.
Qed.

Lemma added_dependencyCalls deps :
  added (dependencyCalls this deps) =
    filter (fun dep => negb (String.eqb dep (name this))) deps.
Proof.
  unfold dependencyCalls.
  induction (filter _ deps) as [|d l IH]; [reflexivity|]. simpl. now rewrite IH.
Qed.

(** Left out are the pieces equal to the asset's name, and only they. *)
Lemma added_iff deps dep :
  In dep (added (dependencyCalls this deps)) <-> In dep deps /\ dep <> name this.
Proof.
  rewrite added_dependencyCalls, filter_In.
  destruct (String.eqb_spec dep (name this)); simpl; intuition congruence.
Qed.

(** A manifest without a colon makes the method throw. *)
Lemma collectDependencies_no_colon s file contents :
  isTargetRust this = true ->
  depsPath s = Some file ->
  readFile w file = inr contents ->
  depsOf contents = None ->
  fst (collectDependencies w this s) =
    inl (TypeError "Cannot read property 'split' of undefined").
Proof.
  intros Hr Hd Hf Hp. unfold collectDependencies. rewrite Hr. simpl.
  unfold bind, get, record, lift. rewrite Hd. cbn [depsPath logged].
  now rewrite Hf, Hp.
Qed.

End Dependencies.

(** The example of the specification: [a.rs], [b.rs] and [self.rs] listed,
    [self.rs] asking. *)
Example dependencies_of_the_example :
  depsOf "self.d: a.rs b.rs self.rs" = Some ["a.rs"; "b.rs"; "self.rs"]
  /\ added (dependencyCalls {| name := "self.rs"; options := Demo.browser |}
                            ["a.rs"; "b.rs"; "self.rs"]) = ["a.rs"; "b.rs"]
  /\ DepSpec.dependencies "self.rs" "self.d: a.rs b.rs self.rs" = Some ["a.rs"; "b.rs"].
Proof. repeat split; reflexivity. Qed.

(** C1, on the code: for the manifest
    [demo_crate.d: /proj/src/lib.rs /proj/src/my\ util.rs] and the asset
    [/proj/src/lib.rs], the method reads the manifest and adds one
    dependency, [/proj/src/myutil.rs]: the escaped space is deleted where the
    specification turns it into a space and yields [/proj/src/my util.rs].
    In a path with two escaped spaces the second keeps its backslash. *)
Theorem escaped_space_is_deleted :
  let contents :=
    "/proj/target/wasm32-unknown-unknown/release/demo_crate.d: /proj/src/lib.rs /proj/src/my\ util.rs" in
  let w := Demo.world None None true true true contents in
  added (calls (bind (@parse SimplePath.posix w Demo.libRs "")
                     (fun _ => @collectDependencies SimplePath.posix w Demo.libRs)))
    = ["/proj/src/myutil.rs"]
  /\ depsOf contents = Some ["/proj/src/lib.rs"; "/proj/src/myutil.rs"]
  /\ DepSpec.dependencies (name Demo.libRs) contents = Some ["/proj/src/my util.rs"]
  /\ depsOf "demo_crate.d: /proj/my\ own\ crate/src/util.rs"
     = Some ["/proj/myown\ crate/src/util.rs"]
  /\ DepSpec.paths "demo_crate.d: /proj/my\ own\ crate/src/util.rs"
     = Some ["/proj/my own crate/src/util.rs"].
Proof. repeat split; reflexivity. Qed.

(** Two more places where the method parts from the words of the
    specification: a second colon ends what is read, and a space is a cut
    only behind a letter, a digit or an underscore. *)
Example other_manifests :
  depsOf "demo_crate.d: C:\proj\src\lib.rs" = Some ["C"]
  /\ DepSpec.paths "demo_crate.d: C:\proj\src\lib.rs" = Some ["C:\proj\src\lib.rs"]
  /\ depsOf "demo_crate.d: /proj/src/a.c++ /proj/src/b.rs"
     = Some ["/proj/src/a.c++ /proj/src/b.rs"]
  /\ DepSpec.paths "demo_crate.d: /proj/src/a.c++ /proj/src/b.rs"
     = Some ["/proj/src/a.c++"; "/proj/src/b.rs"]
  /\ depsOf "no colon here" = None.
Proof. repeat split; reflexivity. Qed.

(* ================================================================== *)
(** ** Dependency extraction on plain manifests *)
(* ================================================================== *)

Section PlainManifests.

Import Plain.

Lemma plainChar_not_white c : plainChar c = true -> JsString.isWhiteSpace c = false.
Proof.
  unfold plainChar. destruct (JsString.isWhiteSpace c); [discriminate | reflexivity].
Qed.

Lemma plainChar_not_colon c : plainChar c = true -> Ascii.eqb c ":" = false.
Proof.
  unfold plainChar. destruct (Ascii.eqb c ":"); [|reflexivity].
  rewrite andb_false_r. discriminate.
Qed.

Lemma plainChar_not_backslash c : plainChar c = true -> Ascii.eqb c "\" = false.
Proof.
  unfold plainChar. destruct (Ascii.eqb c "\"); [|reflexivity].
  rewrite andb_false_r. discriminate.
Qed.

Lemma plainChar_not_space c : plainChar c = true -> Ascii.eqb c " " = false.
Proof.
  intros H. apply plainChar_not_white in H.
  destruct (Ascii.eqb_spec c " ") as [->|]; [discriminate H | reflexivity].
Qed.

Lemma plainPath_cons c d :
  plainPath (String c d) = true ->
  plainChar c = true
  /\ (d = EmptyString /\ JsString.isWordChar c = true \/ plainPath d = true).
Proof.
  simpl. destruct d as [|c' d'].
  - intros H. apply andb_prop in H. destruct H. auto.
  - intros H. apply andb_prop in H. destruct H. auto.
Qed.

Lemma plainPath_allChars d : plainPath d = true -> allChars plainChar d = true.
Proof.
  induction d as [|c d IH]; [discriminate|].
  intros H. destruct (plainPath_cons c d H) as (Hc & [[-> _] | Hd]); simpl.
  - now rewrite Hc.
  - now rewrite Hc, IH.
Qed.

Lemma plainPath_nonempty d : plainPath d = true -> d <> EmptyString.
Proof. destruct d; [discriminate | discriminate]. Qed.

(** *** [trim] *)

Lemma trimEnd_plainPath d : plainPath d = true -> JsString.trimEnd d = d.
Proof.
  induction d as [|c d IH]; [discriminate|].
  intros H. destruct (plainPath_cons c d H) as (Hc & [[-> _] | Hd]).
  - simpl. now rewrite (plainChar_not_white c Hc).
  - simpl. rewrite (IH Hd). destruct d; [discriminate Hd | reflexivity].
Qed.

Lemma trimEnd_keeps s t :
  t <> EmptyString -> JsString.trimEnd t = t -> JsString.trimEnd (s ++ t) = s ++ t.
Proof.
  intros Hn Ht. induction s as [|c s IH]; [exact Ht|].
  simpl. rewrite IH. destruct (s ++ t) eqn:E; [|reflexivity].
  destruct s; simpl in E; [contradiction | discriminate].
Qed.

Lemma trimStart_keeps c s :
  JsString.isWhiteSpace c = false -> JsString.trimStart (String c s) = String c s.
Proof. intros H. simpl. now rewrite H. Qed.

Lemma trim_plainPath d : plainPath d = true -> JsString.trim d = d.
Proof.
  intros H. unfold JsString.trim. destruct d as [|c d]; [discriminate|].
  destruct (plainPath_cons c d H) as (Hc & _).
  rewrite (trimStart_keeps c d (plainChar_not_white c Hc)). now apply trimEnd_plainPath.
Qed.

Lemma trim_space_plainPath d : plainPath d = true -> JsString.trim (" " ++ d) = d.
Proof. intros H. unfold JsString.trim. simpl. now apply trim_plainPath. Qed.

(** *** [split(':')] *)

Lemma consHead_cons c h t : JsString.consHead c (h :: t) = String c h :: t.
Proof. reflexivity. Qed.

Lemma split_none s :
  allChars (fun c => negb (Ascii.eqb c ":")) s = true -> JsString.split ":" s = [s].
Proof.
  induction s as [|c s IH]; [reflexivity|].
  simpl. intros H. apply andb_prop in H. destruct H as [Hc Hs].
  destruct (Ascii.eqb c ":"); [discriminate|]. now rewrite (IH Hs).
Qed.

Lemma split_first t r :
  allChars (fun c => negb (Ascii.eqb c ":")) t = true ->
  JsString.split ":" (t ++ ":" ++ r) = t :: JsString.split ":" r.
Proof.
  induction t as [|c t IH]; [reflexivity|].
  simpl. intros H. apply andb_prop in H. destruct H as [Hc Hs].
  destruct (Ascii.eqb c ":"); [discriminate|]. simpl in IH. now rewrite (IH Hs).
Qed.

Lemma allChars_weaken (f g : ascii -> bool) s :
  (forall c, f c = true -> g c = true) -> allChars f s = true -> allChars g s = true.
Proof.
  intros W. induction s as [|c s IH]; [reflexivity|].
  simpl. intros H. apply andb_prop in H. destruct H as [Hc Hs].
  now rewrite (W c Hc), (IH Hs).
Qed.

Lemma allChars_app f s t :
  allChars f (s ++ t) = allChars f s && allChars f t.
Proof.
  induction s as [|c s IH]; [reflexivity|]. simpl. now rewrite IH, andb_assoc.
Qed.

Lemma rule_no_colon ds :
  Forall (fun d => plainPath d = true) ds ->
  allChars (fun c => negb (Ascii.eqb c ":")) (rule ds) = true.
Proof.
  induction 1 as [|d ds Hd _ IH]; [reflexivity|].
  simpl. rewrite allChars_app, IH, andb_true_r.
  apply (allChars_weaken plainChar); [|now apply plainPath_allChars].
  intros c Hc. now rewrite (plainChar_not_colon c Hc).
Qed.

(** *** Appending *)

Lemma append_empty_r s : s ++ "" = s.
Proof. induction s as [|c s IH]; [reflexivity|]. simpl. now rewrite IH. Qed.

Lemma append_assoc (s t u : string) : (s ++ t) ++ u = s ++ (t ++ u).
Proof. induction s as [|c s IH]; [reflexivity|]. simpl. now rewrite IH. Qed.

Lemma prependHead_cons c d l :
  prependHead (String c d) l = JsString.consHead c (prependHead d l).
Proof. destruct l; reflexivity. Qed.

(** *** [split(/\b\ /g)] *)

Lemma splitWordSpaceFrom_nonempty b s : JsString.splitWordSpaceFrom b s <> [].
Proof.
  revert b. induction s as [|c s IH]; intros b; [discriminate|].
  simpl. destruct (b && Ascii.eqb c " "); [discriminate|].
  specialize (IH (JsString.isWordChar c)).
  destruct (JsString.splitWordSpaceFrom _ s); [contradiction | discriminate].
Qed.

Lemma splitWordSpaceFrom_app b d s :
  allChars plainChar d = true ->
  JsString.splitWordSpaceFrom b (d ++ s) =
    prependHead d (JsString.splitWordSpaceFrom (endsWord b d) s).
Proof.
  revert b. induction d as [|c d IH]; intros b H.
  - simpl. pose proof (splitWordSpaceFrom_nonempty b s) as N.
    destruct (JsString.splitWordSpaceFrom b s); [contradiction | reflexivity].
  - simpl in H. apply andb_prop in H. destruct H as [Hc Hd].
    cbn [append JsString.splitWordSpaceFrom endsWord].
    rewrite (plainChar_not_space c Hc), andb_false_r.
    rewrite (IH _ Hd). now rewrite prependHead_cons.
Qed.

Lemma endsWord_plainPath b d : plainPath d = true -> endsWord b d = true.
Proof.
  revert b. induction d as [|c d IH]; intros b H; [discriminate|].
  destruct (plainPath_cons c d H) as (_ & [[-> Hw] | Hd]); simpl; [exact Hw | now apply IH].
Qed.

Lemma splitWordSpaceFrom_rule ds :
  Forall (fun d => plainPath d = true) ds ->
  JsString.splitWordSpaceFrom true (rule ds) = "" :: ds.
Proof.
  induction 1 as [|d ds Hd _ IH]; [reflexivity|].
  cbn [rule append JsString.splitWordSpaceFrom]. simpl (true && _).
  rewrite (splitWordSpaceFrom_app false d (rule ds) (plainPath_allChars d Hd)).
  rewrite (endsWord_plainPath false d Hd), IH. simpl. now rewrite append_empty_r.
Qed.

Lemma splitWordSpace_rule d ds :
  Forall (fun d => plainPath d = true) (d :: ds) ->
  JsString.splitWordSpace (rule (d :: ds)) = (" " ++ d) :: ds.
Proof.
  intros H. inversion H as [|? ? Hd Hds]; subst.
  unfold JsString.splitWordSpace. cbn [rule append JsString.splitWordSpaceFrom].
  simpl (false && _).
  rewrite (splitWordSpaceFrom_app (JsString.isWordChar " ") d (rule ds)
             (plainPath_allChars d Hd)).
  rewrite (endsWord_plainPath (JsString.isWordChar " ") d Hd).
  rewrite (splitWordSpaceFrom_rule ds Hds).
  simpl. now rewrite append_empty_r.
Qed.

(** *** [replace('\\ ', '')] *)

Lemma replaceFirst_plain d :
  allChars plainChar d = true -> JsString.replaceFirst "\ " "" d = d.
Proof.
  induction d as [|c d IH]; [reflexivity|].
  simpl allChars. intros H. apply andb_prop in H. destruct H as [Hc Hd].
  cbn [JsString.replaceFirst String.prefix].
  destruct (ascii_dec "\" c) as [<-|N]; [discriminate Hc|].
  now rewrite (IH Hd).
Qed.

Lemma pieces_plain ds :
  Forall (fun d => plainPath d = true) ds ->
  map (fun x => JsString.replaceFirst "\ " "" (JsString.trim x)) ds = ds.
Proof.
  induction 1 as [|d ds Hd _ IH]; [reflexivity|].
  simpl. rewrite IH, (trim_plainPath d Hd).
  now rewrite (replaceFirst_plain d (plainPath_allChars d Hd)).
Qed.

(** *** The whole manifest *)

Lemma trimEnd_rule ds :
  Forall (fun d => plainPath d = true) ds -> ds <> [] ->
  forall s, JsString.trimEnd (s ++ rule ds) = s ++ rule ds.
Proof.
  induction 1 as [|d ds Hd Hds IH]; [contradiction|].
  intros _ s. destruct ds as [|d2 ds'].
  - cbn [rule]. rewrite append_empty_r.
    change (s ++ " " ++ d) with (s ++ (" " ++ d)). rewrite <- append_assoc.
    apply trimEnd_keeps; [now apply plainPath_nonempty | now apply trimEnd_plainPath].
  - change (rule (d :: d2 :: ds')) with (" " ++ (d ++ rule (d2 :: ds'))).
    rewrite <- (append_assoc " " d), <- (append_assoc s).
    apply IH. discriminate.
Qed.

Lemma trim_manifest target d ds :
  allChars plainChar target = true ->
  Forall (fun d => plainPath d = true) (d :: ds) ->
  JsString.trim (manifest target (d :: ds)) = manifest target (d :: ds).
Proof.
  intros Ht Hds. unfold JsString.trim, manifest.
  assert (S : JsString.trimStart (target ++ ":" ++ rule (d :: ds)) =
              target ++ ":" ++ rule (d :: ds)).
  { destruct target as [|c t]; [reflexivity|].
    simpl in Ht. apply andb_prop in Ht. destruct Ht as [Hc _].
    apply trimStart_keeps. now apply plainChar_not_white. }
  rewrite S.
  change (target ++ ":" ++ rule (d :: ds)) with (target ++ (":" ++ rule (d :: ds))).
  rewrite <- append_assoc. apply trimEnd_rule; [assumption | discriminate].
Qed.

(** On a plain manifest the pieces the method finds are the paths listed. *)
Lemma depsOf_plain target d ds :
  allChars plainChar target = true ->
  Forall (fun d => plainPath d = true) (d :: ds) ->
  depsOf (manifest target (d :: ds)) = Some (d :: ds).
Proof.
  intros Ht Hds. unfold depsOf. rewrite (trim_manifest target d ds Ht Hds).
  unfold manifest. rewrite split_first.
  2:{ apply (allChars_weaken plainChar); [|assumption].
      intros c Hc. now rewrite (plainChar_not_colon c Hc). }
  rewrite (split_none _ (rule_no_colon _ Hds)). cbn [nth_error].
  rewrite (splitWordSpace_rule d ds Hds). cbn [map].
  inversion Hds as [|? ? Hd Hrest]; subst.
  rewrite (trim_space_plainPath d Hd), (replaceFirst_plain d (plainPath_allChars d Hd)).
  now rewrite (pieces_plain ds Hrest).
Qed.

(** *** The same manifest, read as the specification words it *)

Lemma afterFirstColon_first t r :
  allChars (fun c => negb (Ascii.eqb c ":")) t = true ->
  DepSpec.afterFirstColon (t ++ ":" ++ r) = Some r.
Proof.
  induction t as [|c t IH]; [reflexivity|].
  simpl. intros H. apply andb_prop in H. destruct H as [Hc Ht].
  destruct (Ascii.eqb c ":"); [discriminate|]. now apply IH.
Qed.

Lemma splitUnescaped_nonempty b s : DepSpec.splitUnescaped b s <> [].
Proof.
  revert b. induction s as [|c s IH]; intros b; [discriminate|].
  simpl. destruct (negb b && Ascii.eqb c " "); [discriminate|].
  specialize (IH (negb b && Ascii.eqb c "\")).
  destruct (DepSpec.splitUnescaped _ s); [contradiction | discriminate].
Qed.

Lemma splitUnescaped_app d s :
  allChars plainChar d = true ->
  DepSpec.splitUnescaped false (d ++ s) = prependHead d (DepSpec.splitUnescaped false s).
Proof.
  induction d as [|c d IH]; intros H.
  - simpl. pose proof (splitUnescaped_nonempty false s) as N.
    destruct (DepSpec.splitUnescaped false s); [contradiction | reflexivity].
  - simpl in H. apply andb_prop in H. destruct H as [Hc Hd].
    cbn [append DepSpec.splitUnescaped negb].
    rewrite (plainChar_not_space c Hc), (plainChar_not_backslash c Hc). cbn [andb].
    rewrite (IH Hd). now rewrite prependHead_cons.
Qed.

Lemma splitUnescaped_rule ds :
  Forall (fun d => plainPath d = true) ds ->
  DepSpec.splitUnescaped false (rule ds) = "" :: ds.
Proof.
  induction 1 as [|d ds Hd _ IH]; [reflexivity|].
  cbn [rule append DepSpec.splitUnescaped negb]. simpl (true && _).
  rewrite (splitUnescaped_app d (rule ds) (plainPath_allChars d Hd)), IH.
  simpl. now rewrite append_empty_r.
Qed.

Lemma unescapeSpaces_plain d :
  allChars plainChar d = true -> DepSpec.unescapeSpaces d = d.
Proof.
  induction d as [|c d IH]; [reflexivity|].
  simpl allChars. intros H. apply andb_prop in H. destruct H as [Hc Hd].
  specialize (IH Hd).
  destruct c as [[] [] [] [] [] [] [] []];
    try discriminate Hc; cbn [DepSpec.unescapeSpaces]; now rewrite IH.
Qed.

Lemma paths_plain ds :
  Forall (fun d => plainPath d = true) ds ->
  map DepSpec.unescapeSpaces (filter (fun x => negb (String.eqb x "")) ds) = ds.
Proof.
  induction 1 as [|d ds Hd _ IH]; [reflexivity|].
  simpl. destruct (String.eqb_spec d "") as [->|N]; [discriminate Hd|].
  simpl. now rewrite IH, (unescapeSpaces_plain d (plainPath_allChars d Hd)).
Qed.

Lemma spec_paths_plain target d ds :
  allChars plainChar target = true ->
  Forall (fun d => plainPath d = true) (d :: ds) ->
  DepSpec.paths (manifest target (d :: ds)) = Some (d :: ds).
Proof.
  intros Ht Hds. unfold DepSpec.paths. rewrite (trim_manifest target d ds Ht Hds).
  unfold manifest. rewrite afterFirstColon_first.
  2:{ apply (allChars_weaken plainChar); [|assumption].
      intros c Hc. now rewrite (plainChar_not_colon c Hc). }
  rewrite (splitUnescaped_rule _ Hds).
  change (filter (fun x => negb (String.eqb x "")) ("" :: d :: ds))
    with (filter (fun x => negb (String.eqb x "")) (d :: ds)).
  now rewrite (paths_plain _ Hds).
Qed.

(** On a plain manifest the method does what the specification says: it
    reads the manifest and adds, in their order, the paths listed behind the
    colon, leaving out those equal to the asset's own name and only those. *)
Theorem plain_manifest_dependencies
        (path : PathModule) (w : World) (this : Asset) (s : AssetState)
        (file target d : string) (ds : list string) :
  isTargetRust this = true ->
  depsPath s = Some file ->
  readFile w file = inr (manifest target (d :: ds)) ->
  allChars plainChar target = true ->
  Forall (fun d => plainPath d = true) (d :: ds) ->
  collectDependencies w this s =
    (inr VUndefined, loggedAll (ReadFile file :: dependencyCalls this (d :: ds)) s)
  /\ Some (added (dependencyCalls this (d :: ds))) =
       DepSpec.dependencies (name this) (manifest target (d :: ds))
  /\ (forall dep, In dep (added (dependencyCalls this (d :: ds)))
                  <-> In dep (d :: ds) /\ dep <> name this).
Proof.
  intros Hr Hp Hf Ht Hds. split; [|split].
  - apply (collectDependencies_run w this s file _ _ Hr Hp Hf).
    now apply depsOf_plain.
  - unfold DepSpec.dependencies. rewrite (spec_paths_plain target d ds Ht Hds).
    now rewrite added_dependencyCalls.
  - intros dep. apply added_iff.
Qed.

End PlainManifests.

(** The example of the specification is a plain manifest. *)
Example plain_manifest_example :
  Plain.manifest "self.d" ["a.rs"; "b.rs"; "self.rs"] = "self.d: a.rs b.rs self.rs"
  /\ Plain.allChars Plain.plainChar "self.d" = true
  /\ forallb Plain.plainPath ["a.rs"; "b.rs"; "self.rs"] = true.
Proof. repeat split; reflexivity. Qed.

(* ================================================================== *)
(** ** More on the Mode Resolver *)
(* ================================================================== *)

(** The rows of the build options. *)
Lemma buildOpts_three_rows (w : World) (opts : BuildOpts) :
  buildOpts w = inr opts ->
  opts = {| cargoTargetDirName := "debug"; cargoProfile := "--debug";
            wasmPackProfile := "dev" |}
  \/ opts = {| cargoTargetDirName := "release"; cargoProfile := "--release";
               wasmPackProfile := "release" |}
  \/ opts = {| cargoTargetDirName := "release"; cargoProfile := "--release";
               wasmPackProfile := "profiling" |}.
Proof.
  unfold buildOpts. destruct (buildMode w) as [e | [r p]] eqn:E; [discriminate|].
  intros H. injection H as <-.
  destruct (buildMode_consistent w r p E) as [[-> ->] | [-> [-> | ->]]]; auto.
Qed.

(** The three fields of the build options always form one of three rows:
    the dev profile goes with [debug] and [--debug], the release and the
    profiling profile go with [release] and [--release]. *)
Theorem buildOpts_rows (w : World) (opts : BuildOpts) :
  buildOpts w = inr opts ->
  opts = {| cargoTargetDirName := "debug"; cargoProfile := "--debug";
            wasmPackProfile := "dev" |}
  \/ opts = {| cargoTargetDirName := "release"; cargoProfile := "--release";
               wasmPackProfile := "release" |}
  \/ opts = {| cargoTargetDirName := "release"; cargoProfile := "--release";
               wasmPackProfile := "profiling" |}.
Proof. exact (buildOpts_three_rows w opts). Qed.

Lemma buildOpts_rows_witness :
  buildOpts (Demo.world (Some "Profiling") None true true true "") =
    inr {| cargoTargetDirName := "release"; cargoProfile := "--release";
           wasmPackProfile := "profiling" |}.
Proof.
  destruct (buildOpts_rows (Demo.world (Some "Profiling") None true true true "") _ eq_refl)
    as [H | [H | H]]; try discriminate H. reflexivity.
Defined.

(** With the profile override set, the general override plays no part: two
    environments that agree on [WASM_PACK_PROFILE] resolve alike, whatever
    their [NODE_ENV]. *)
Theorem profile_override_wins (w w' : World) (v : string) :
  WASM_PACK_PROFILE w = Some v ->
  WASM_PACK_PROFILE w' = Some v ->
  buildOpts w = buildOpts w'.
Proof.
  intros H H'. unfold buildOpts.
  now rewrite (buildMode_profile w v H), (buildMode_profile w' v H').
Qed.

Lemma profile_override_wins_witness :
  buildOpts (Demo.world (Some "dev") (Some "production") true true true "") =
  buildOpts (Demo.world (Some "dev") (Some "development") true true true "").
Proof.
  exact (profile_override_wins
           (Demo.world (Some "dev") (Some "production") true true true "")
           (Demo.world (Some "dev") (Some "development") true true true "")
           "dev" eq_refl eq_refl).
Defined.

(** Only the lower-cased value counts for what the resolver returns: two
    profile overrides that differ in case alone resolve to the same options
    when they resolve at all, and two general overrides that differ in case
    alone always do. *)
Theorem overrides_ignore_case (w w' : World) :
  (forall v v',
     WASM_PACK_PROFILE w = Some v -> WASM_PACK_PROFILE w' = Some v' ->
     JsString.toLowerCase v = JsString.toLowerCase v' ->
     forall opts, buildOpts w = inr opts <-> buildOpts w' = inr opts)
  /\ (forall v v',
        WASM_PACK_PROFILE w = None -> WASM_PACK_PROFILE w' = None ->
        NODE_ENV w = Some v -> NODE_ENV w' = Some v' ->
        JsString.toLowerCase v = JsString.toLowerCase v' ->
        buildOpts w = buildOpts w').
Proof.
  split.
  - intros v v' H H' E opts. unfold buildOpts.
    rewrite (buildMode_profile w v H), (buildMode_profile w' v' H'). cbv zeta.
    rewrite E.
    destruct (_ || _); [reflexivity|].
    destruct (String.eqb _ "release"); [reflexivity|].
    destruct (String.eqb _ "profiling"); [reflexivity|].
    split; discriminate.
  - intros v v' H H' N N' E. unfold buildOpts.
    rewrite (buildMode_nodeEnv w v H N), (buildMode_nodeEnv w' v' H' N'). cbv zeta.
    now rewrite E.
Qed.

Lemma overrides_ignore_case_witness :
  buildOpts (Demo.world (Some "DEBUG") None true true true "") =
    inr {| cargoTargetDirName := "debug"; cargoProfile := "--debug";
           wasmPackProfile := "dev" |}.
Proof.
  destruct (overrides_ignore_case
              (Demo.world (Some "debug") None true true true "")
              (Demo.world (Some "DEBUG") None true true true "")) as (H & _).
  apply (H "debug" "DEBUG" eq_refl eq_refl eq_refl). reflexivity.
Defined.

(* ================================================================== *)
(** ** What a build returns *)
(* ================================================================== *)

Lemma replaceAllChar_absent c d s :
  c <> d -> JsString.occurs c (JsString.replaceAllChar c d s) = false.
Proof.
  intros N. induction s as [|x s IH]; [reflexivity|].
  simpl. rewrite IH, orb_false_r.
  destruct (Ascii.eqb_spec x c) as [->|Nx].
  - destruct (Ascii.eqb_spec d c); [congruence | reflexivity].
  - destruct (Ascii.eqb_spec x c); [congruence | reflexivity].
Qed.

Lemma replaceAllChar_length c d s :
  String.length (JsString.replaceAllChar c d s) = String.length s.
Proof. induction s as [|x s IH]; [reflexivity|]. simpl. now rewrite IH. Qed.

Lemma replaceAllChar_id c d s :
  JsString.occurs c s = false -> JsString.replaceAllChar c d s = s.
Proof.
  induction s as [|x s IH]; [reflexivity|].
  simpl. destruct (Ascii.eqb x c); [discriminate|]. simpl. intros H. now rewrite IH.
Qed.

(** The name is read only off a manifest whose [package.name] is a
    string. *)
Lemma crateName_ok cargoConfig n :
  crateName cargoConfig = inr n ->
  exists pkg raw,
    JsValue.getProp cargoConfig "package" = inr pkg
    /\ JsValue.getProp pkg "name" = inr (VStr raw)
    /\ n = JsString.replaceAllChar "-" "_" raw.
Proof.
  unfold crateName.
  destruct (JsValue.getProp cargoConfig "package") as [e | pkg] eqn:Ep; [discriminate|].
  destruct (JsValue.getProp pkg "name") as [e | [ | | b | z | raw | items | fields]] eqn:En;
    try discriminate.
  intros H. injection H as <-. now exists pkg, raw.
Qed.

Lemma crateName_error cargoConfig e :
  crateName cargoConfig = inl e -> exists what, e = TypeError what.
Proof.
  unfold crateName.
  destruct cargoConfig as [ | | b | z | x | items | fields]; simpl;
    try (intros H; injection H as <-; eexists; reflexivity).
  destruct (JsValue.lookup "package" fields) as [ | | b | z | x | items | pf]; simpl;
    try (intros H; injection H as <-; eexists; reflexivity).
  destruct (JsValue.lookup "name" pf); try discriminate;
    intros H; injection H as <-; eexists; reflexivity.
Qed.

Section Builds.

Context {path : PathModule}.
Variable w : World.
Variable this : Asset.
Variable cargoConfig : value.
Variable cargoDir_ : string.

Lemma wasmPackBuild_ok has_deps s r s' :
  wasmPackBuild w this cargoConfig cargoDir_ has_deps s = (inr r, s') ->
  exists n,
    crateName cargoConfig = inr n
    /\ r = {| outDir := join [cargoDir_; "pkg"]; rustName := n; cargoDir := cargoDir_ |}.
Proof.
  rewrite wasmPackBuild_run. destruct (buildOpts w) as [e | opts]; [discriminate|].
  cbv zeta. destruct (execFile w _ "wasm-pack" _ _) as [e | out]; [discriminate|].
  destruct (crateName cargoConfig) as [e | n]; [discriminate|].
  intros H. injection H as <- _. now exists n.
Qed.

(** The [try] block, step by step. *)
Lemma rawBuildSteps_run s :
  rawBuildSteps w this cargoConfig cargoDir_ s =
    match buildOpts w with
    | inl e => (inl e, s)
    | inr opts =>
        let build1 := ["build"; "--target"; RUST_TARGET; cargoProfile opts] in
        let metadata := ["metadata"; "--format-version"; "1"] in
        let s1 := logged (Exec "cargo" build1 (inDir cargoDir_)) s in
        let s2 := logged (Exec "cargo" metadata (inDir cargoDir_)) s1 in
        match execFile w (log s) "cargo" build1 (inDir cargoDir_) with
        | inl e => (inl e, s1)
        | inr _ =>
            match execFile w (log s1) "cargo" metadata (inDir cargoDir_) with
            | inl e => (inl e, s2)
            | inr stdout =>
                match targetDirectory w stdout with
                | inl e => (inl e, s2)
                | inr d =>
                    match crateName cargoConfig with
                    | inl e => (inl e, s2)
                    | inr n =>
                        let out := join [d; RUST_TARGET; d] in
                        let bindgen :=
                          [join [out; n ++ ".wasm"]; "--out-dir"; out;
                           "--target"; if isNode this then "nodejs" else "web"] in
                        let s3 := logged (Exec "wasm-bindgen" bindgen (inDir cargoDir_)) s2 in
                        match execFile w (log s2) "wasm-bindgen" bindgen
                                       (inDir cargoDir_) with
                        | inl e => (inl e, s3)
                        | inr _ =>
                            (inr {| outDir := out; rustName := n; cargoDir := cargoDir_ |},
                             s3)
                        end
                    end
                end
            end
        end
    end.
Proof.
  unfold rawBuildSteps, bind, lift, ret.
  destruct (buildOpts w) as [e | opts]; [reflexivity|]. cbv zeta.
  rewrite exec_run.
  destruct (execFile w (log s) "cargo" _ _) as [e | out]; [reflexivity|].
  rewrite exec_run.
  destruct (execFile w _ "cargo" _ _) as [e | stdout]; [reflexivity|].
  destruct (targetDirectory w stdout) as [e | d]; [reflexivity|].
  destruct (crateName cargoConfig) as [e | n]; [reflexivity|].
  rewrite exec_run.
  destruct (execFile w _ "wasm-bindgen" _ _) as [e | out']; reflexivity.
Qed.

End Builds.

(** What [targetDirectory] returns is the string under [target_directory]
    of the parsed output. *)
Lemma targetDirectory_ok (w : World) (stdout d : string) :
  targetDirectory w stdout = inr d ->
  exists metadata,
    jsonParse w stdout = inr metadata
    /\ JsValue.getProp metadata "target_directory" = inr (VStr d).
Proof.
  unfold targetDirectory.
  destruct (jsonParse w stdout) as [e | metadata] eqn:Ej; [discriminate|].
  destruct (JsValue.getProp metadata "target_directory")
    as [e | [ | | b | z | x | items | fields]] eqn:Eg; try discriminate.
  intros H. injection H as <-. now exists metadata.
Qed.

(** A fallback build that succeeds has made three calls in the crate
    directory and no other: [cargo build] for the wasm target with
    [--release] or [--debug], [cargo metadata], and wasm-bindgen on the
    [.wasm] file named after the crate, for [nodejs] when the bundle targets
    node and for [web] otherwise.  The output directory it returns, and hands
    to wasm-bindgen, joins the [target_directory] that the output of its
    [cargo metadata] call holds, the Rust target, and that target directory
    once more; the module name it returns is the one read off the
    manifest. *)
Theorem fallback_commands
        (path : PathModule) (w : World) (this : Asset) (cargoConfig : value)
        (cargoDir_ : string) (s s' : AssetState) (r : BuildResult) :
  rawBuild w this cargoConfig cargoDir_ s = (inr r, s') ->
  exists opts stdout metadata d,
    buildOpts w = inr opts
    /\ (cargoProfile opts = "--release" \/ cargoProfile opts = "--debug")
    /\ execFile w
         (log s ++
          [Exec "cargo" ["build"; "--target"; "wasm32-unknown-unknown"; cargoProfile opts]
                {| cwd := Some cargoDir_; maxBuffer := None |}])%list
         "cargo" ["metadata"; "--format-version"; "1"]
         {| cwd := Some cargoDir_; maxBuffer := None |} = inr stdout
    /\ jsonParse w stdout = inr metadata
    /\ JsValue.getProp metadata "target_directory" = inr (VStr d)
    /\ outDir r = join [d; "wasm32-unknown-unknown"; d]
    /\ crateName cargoConfig = inr (rustName r)
    /\ cargoDir r = cargoDir_
    /\ log s' =
         (log s ++
          [Exec "cargo" ["build"; "--target"; "wasm32-unknown-unknown"; cargoProfile opts]
                {| cwd := Some cargoDir_; maxBuffer := None |};
           Exec "cargo" ["metadata"; "--format-version"; "1"]
                {| cwd := Some cargoDir_; maxBuffer := None |};
           Exec "wasm-bindgen"
                [join [outDir r; (rustName r ++ ".wasm")%string]; "--out-dir"; outDir r;
                 "--target";
                 if String.eqb (target (options this)) "node" then "nodejs" else "web"]
                {| cwd := Some cargoDir_; maxBuffer := None |}])%list.
Proof.
  rewrite rawBuild_catch, rawBuildSteps_run.
  destruct (buildOpts w) as [e | opts] eqn:Eo; [discriminate|]. cbv zeta.
  destruct (execFile w (log s) "cargo" _ _) as [e | out]; [discriminate|].
  destruct (execFile w _ "cargo" _ _) as [e | stdout] eqn:Em; [discriminate|].
  destruct (targetDirectory w stdout) as [e | d] eqn:Et; [discriminate|].
  destruct (crateName cargoConfig) as [e | n]; [discriminate|].
  destruct (execFile w _ "wasm-bindgen" _ _) as [e | out']; [discriminate|].
  intros H. injection H as <- <-.
  destruct (targetDirectory_ok w stdout d Et) as (metadata & Ej & Eg).
  exists opts, stdout, metadata, d.
  split; [reflexivity|]. split.
  { destruct (buildOpts_three_rows w opts Eo) as [-> | [-> | ->]]; simpl; auto. }
  split; [exact Em|]. split; [exact Ej|]. split; [exact Eg|].
  repeat split. simpl. rewrite <- !app_assoc. reflexivity.
Qed.

Lemma fallback_commands_witness :
  exists s',
    @rawBuild SimplePath.posix (Demo.world None (Some "dev") false true true "")
              Demo.libRs Demo.manifest "/proj" initial =
      (inr {| outDir := "/proj/target/wasm32-unknown-unknown/proj/target";
              rustName := "demo_crate"; cargoDir := "/proj" |}, s')
    /\ log s' =
         [Exec "cargo" ["build"; "--target"; "wasm32-unknown-unknown"; "--debug"]
               {| cwd := Some "/proj"; maxBuffer := None |};
          Exec "cargo" ["metadata"; "--format-version"; "1"]
               {| cwd := Some "/proj"; maxBuffer := None |};
          Exec "wasm-bindgen"
               ["/proj/target/wasm32-unknown-unknown/proj/target/demo_crate.wasm";
                "--out-dir"; "/proj/target/wasm32-unknown-unknown/proj/target";
                "--target"; "web"]
               {| cwd := Some "/proj"; maxBuffer := None |}].
Proof.
  eexists. split; [reflexivity|].
  destruct (fallback_commands SimplePath.posix
              (Demo.world None (Some "dev") false true true "")
              Demo.libRs Demo.manifest "/proj" initial _ _ eq_refl)
    as (opts & stdout & metadata & d & Ho & _ & _ & _ & _ & _ & _ & _ & L).
  injection Ho as <-. exact L.
Defined.

(** What a successful build returns. *)
Lemma build_result_shape
        (path : PathModule) (w : World) (this : Asset) (cargoConfig : value)
        (cargoDir_ : string) (hp hc hb : bool) (s s' : AssetState) (r : BuildResult) :
  build w this cargoConfig cargoDir_ hp hc hb s = (inr r, s') ->
  exists pkg raw,
    JsValue.getProp cargoConfig "package" = inr pkg
    /\ JsValue.getProp pkg "name" = inr (VStr raw)
    /\ rustName r = JsString.replaceAllChar "-" "_" raw
    /\ JsString.occurs "-" (rustName r) = false
    /\ String.length (rustName r) = String.length raw
    /\ (JsString.occurs "-" raw = false -> rustName r = raw)
    /\ cargoDir r = cargoDir_
    /\ (hp = true -> outDir r = join [cargoDir_; "pkg"]).
Proof.
  intros H.
  assert (N : exists n, crateName cargoConfig = inr n /\ rustName r = n
                        /\ cargoDir r = cargoDir_
                        /\ (hp = true -> outDir r = join [cargoDir_; "pkg"])).
  { unfold build in H. destruct hp.
    - destruct (wasmPackBuild_ok w this cargoConfig cargoDir_ _ s r s' H) as (n & Hn & ->).
      exists n. auto.
    - destruct hc; [|discriminate]. destruct hb; [|discriminate].
      pose proof (rawBuild_ok_dir w this cargoConfig cargoDir_ s r s' H) as D.
      rewrite rawBuild_catch, rawBuildSteps_run in H.
      destruct (buildOpts w) as [e | opts]; [discriminate|]. cbv zeta in H.
      destruct (execFile w (log s) "cargo" _ _) as [e | out]; [discriminate|].
      destruct (execFile w _ "cargo" _ _) as [e | stdout]; [discriminate|].
      destruct (targetDirectory w stdout) as [e | d]; [discriminate|].
      destruct (crateName cargoConfig) as [e | n]; [discriminate|].
      destruct (execFile w _ "wasm-bindgen" _ _) as [e | out']; [discriminate|].
      injection H as <- _. exists n. repeat split. discriminate. }
  destruct N as (n & Hn & Hr & Hd & Ho).
  destruct (crateName_ok cargoConfig n Hn) as (pkg & raw & Hp & Hraw & ->).
  exists pkg, raw. rewrite Hr. repeat split; auto.
  - apply replaceAllChar_absent. discriminate.
  - apply replaceAllChar_length.
  - apply replaceAllChar_id.
Qed.

(** Whichever strategy built the crate, the module name it returns is the
    [package.name] of the manifest, a string, with every hyphen turned into
    an underscore: it holds no hyphen, it is as long as the name, and it is
    the name itself when that holds no hyphen.  The crate directory returned
    is the one built in, and Strategy A returns its [pkg] directory. *)
Theorem build_result_names
        (path : PathModule) (w : World) (this : Asset) (cargoConfig : value)
        (cargoDir_ : string) (hp hc hb : bool) (s s' : AssetState) (r : BuildResult) :
  build w this cargoConfig cargoDir_ hp hc hb s = (inr r, s') ->
  exists pkg raw,
    JsValue.getProp cargoConfig "package" = inr pkg
    /\ JsValue.getProp pkg "name" = inr (VStr raw)
    /\ rustName r = JsString.replaceAllChar "-" "_" raw
    /\ JsString.occurs "-" (rustName r) = false
    /\ String.length (rustName r) = String.length raw
    /\ (JsString.occurs "-" raw = false -> rustName r = raw)
    /\ cargoDir r = cargoDir_
    /\ (hp = true -> outDir r = join [cargoDir_; "pkg"]).
Proof. exact (build_result_shape path w this cargoConfig cargoDir_ hp hc hb s s' r). Qed.

Lemma build_result_names_witness :
  exists r s',
    @build SimplePath.posix (Demo.world None None true true true "") Demo.libRs
           Demo.manifest "/proj" true true true initial = (inr r, s')
    /\ rustName r = "demo_crate".
Proof.
  eexists. eexists. split; [reflexivity|].
  destruct (build_result_names SimplePath.posix (Demo.world None None true true true "")
              Demo.libRs Demo.manifest "/proj" true true true initial _ _ eq_refl)
    as (pkg & raw & Hp & Hn & Hr & _).
  injection Hp as <-. injection Hn as <-. exact Hr.
Defined.

(** The crate-type check does not look at [package]: on a manifest whose
    [package.name] is no string, Strategy A probes wasm-pack, runs the whole
    wasm-pack build, and only then throws a TypeError. *)
Theorem missing_name_fails_after_the_build
        (path : PathModule) (w : World) (this : Asset) (cargoConfig : value)
        (cargoDir_ : string) (has_deps : bool) (s : AssetState)
        (opts : BuildOpts) (e : exn) :
  buildOpts w = inr opts ->
  crateName cargoConfig = inl e ->
  (forall l args o, exists out, execFile w l "wasm-pack" args o = inr out) ->
  wasmPackBuild w this cargoConfig cargoDir_ has_deps s =
    (inl e,
     loggedAll [Exec "wasm-pack" ["build"; "--help"] noOptions;
                Exec "wasm-pack" (wasmPackArgs true has_deps (isNode this) (wasmPackProfile opts))
                     (inDir cargoDir_)] s)
  /\ exists what, e = TypeError what.
Proof.
  intros Ho Hn Hx. split; [|now apply (crateName_error cargoConfig)].
  rewrite wasmPackBuild_run, Ho. cbv zeta.
  assert (Hh : helpProbe w (log s) = true).
  { unfold helpProbe. destruct (Hx (log s) ["build"; "--help"] noOptions) as (out & ->).
    reflexivity. }
  unfold packCall. rewrite Hh.
  destruct (Hx (log s ++ [helpCall])%list
               (wasmPackArgs true has_deps (isNode this) (wasmPackProfile opts))
               (inDir cargoDir_)) as (out & ->).
  rewrite Hn. unfold loggedAll, logged, helpCall. simpl. now rewrite <- app_assoc.
Qed.

Lemma missing_name_fails_after_the_build_witness :
  calls (@parse SimplePath.posix
           (Demo.withManifest (VObj [("lib", VObj [("crate-type", VArr [VStr "cdylib"])])])
                              (Demo.world None None true true true ""))
           Demo.libRs "") =
    [Probe "wasm-pack"; Probe "cargo"; Probe "wasm-bindgen";
     Exec "wasm-pack" ["build"; "--help"] noOptions;
     Exec "wasm-pack" ["build"; "-m"; "no-install"; "--target"; "bundler"; "--release"]
          (inDir "/proj")]
  /\ exists what,
       fst (@wasmPackBuild SimplePath.posix
              (Demo.withManifest (VObj [("lib", VObj [("crate-type", VArr [VStr "cdylib"])])])
                                 (Demo.world None None true true true ""))
              Demo.libRs (VObj [("lib", VObj [("crate-type", VArr [VStr "cdylib"])])])
              "/proj" true initial) = inl (TypeError what).
Proof.
  split; [reflexivity|].
  destruct (missing_name_fails_after_the_build SimplePath.posix
              (Demo.withManifest (VObj [("lib", VObj [("crate-type", VArr [VStr "cdylib"])])])
                                 (Demo.world None None true true true ""))
              Demo.libRs (VObj [("lib", VObj [("crate-type", VArr [VStr "cdylib"])])])
              "/proj" true initial _ _ eq_refl eq_refl) as (H & what & E).
  - intros l args o. exists "". reflexivity.
  - exists what. rewrite H. cbn [fst]. exact (f_equal inl E).
Defined.

(* ================================================================== *)
(** ** Output resolution, whether it succeeds or not *)
(* ================================================================== *)

(** The two ways an output resolution ends. *)
Lemma wasmPostProcess_outcomes
        (path : PathModule) (w : World) (this : Asset) (r : BuildResult)
        (s : AssetState) (opts : BuildOpts) :
  buildOpts w = inr opts ->
  let s' := snd (wasmPostProcess w this r s) in
  jsPath s' = Some (getPath this (outDir r) (rustName r ++ ".js"))
  /\ jsAltPath s' = Some (getPath this (outDir r) (rustName r ++ "_bg.js"))
  /\ wasmPath s' = Some (getPath this (outDir r) (rustName r ++ "_bg.wasm"))
  /\ log s' = (log s ++ [metadataCall (cargoDir r)])%list
  /\ match fst (wasmPostProcess w this r s) with
     | inr _ =>
         exists stdout metadata d,
           execFile w (log s) "cargo" ["metadata"; "--format-version"; "1"]
                    {| cwd := Some (cargoDir r); maxBuffer := Some (1024 * 1024)%N |}
             = inr stdout
           /\ jsonParse w stdout = inr metadata
           /\ JsValue.getProp metadata "target_directory" = inr (VStr d)
           /\ depsPath s' =
                Some (join [d; "wasm32-unknown-unknown"; cargoTargetDirName opts;
                            rustName r ++ ".d"])
           /\ (cargoTargetDirName opts = "release" \/ cargoTargetDirName opts = "debug")
     | inl _ => depsPath s' = depsPath s
     end
  /\ (forall stdout metadata,
        execFile w (log s) "cargo" ["metadata"; "--format-version"; "1"]
                 {| cwd := Some (cargoDir r); maxBuffer := Some (1024 * 1024)%N |}
          = inr stdout ->
        jsonParse w stdout = inr metadata ->
        (forall d, JsValue.getProp metadata "target_directory" <> inr (VStr d)) ->
        exists e, fst (wasmPostProcess w this r s) = inl e).
Proof.
  intros Ho. cbv zeta. rewrite (wasmPostProcess_run w this r s opts Ho). cbv zeta.
  destruct (execFile w (log s) "cargo" _ _) as [e | stdout] eqn:Ex.
  - cbn [fst snd]. repeat split; try reflexivity. intros; discriminate.
  - unfold targetDirectory.
    destruct (jsonParse w stdout) as [e | metadata] eqn:Ej.
    + cbn [fst snd]. repeat split; try reflexivity.
      intros out md H1 H2 _. injection H1 as <-. rewrite Ej in H2. discriminate.
    + destruct (JsValue.getProp metadata "target_directory")
        as [e | [ | | b | z | d | items | fields]] eqn:Eg;
        cbn [fst snd]; repeat split; try reflexivity.
      all: try (intros out md H1 H2 H3; eexists; reflexivity).
      * exists stdout, metadata, d. repeat split; try assumption.
        destruct (buildOpts_three_rows w opts Ho) as [-> | [-> | ->]]; simpl; auto.
      * intros out md H1 H2 H3. injection H1 as <-. rewrite Ej in H2.
        injection H2 as <-. exfalso. exact (H3 d Eg).
Qed.

(** Once the build options are resolved, the output resolution sets the
    three output paths and then makes its one call, [cargo metadata]; what
    becomes of the fourth path hangs on that call.  If the call succeeds and
    its output holds a string [target_directory], the path of the dependency
    manifest is set, under that directory, the Rust target and [release] or
    [debug]; if the call fails, or its output is no JSON, or holds no string
    [target_directory], the method throws and the asset keeps the three new
    paths next to the old fourth one. *)
Theorem output_resolution_outcomes
        (path : PathModule) (w : World) (this : Asset) (r : BuildResult)
        (s : AssetState) (opts : BuildOpts) :
  buildOpts w = inr opts ->
  let s' := snd (wasmPostProcess w this r s) in
  jsPath s' = Some (getPath this (outDir r) (rustName r ++ ".js"))
  /\ jsAltPath s' = Some (getPath this (outDir r) (rustName r ++ "_bg.js"))
  /\ wasmPath s' = Some (getPath this (outDir r) (rustName r ++ "_bg.wasm"))
  /\ log s' = (log s ++ [metadataCall (cargoDir r)])%list
  /\ match fst (wasmPostProcess w this r s) with
     | inr _ =>
         exists stdout metadata d,
           execFile w (log s) "cargo" ["metadata"; "--format-version"; "1"]
                    {| cwd := Some (cargoDir r); maxBuffer := Some (1024 * 1024)%N |}
             = inr stdout
           /\ jsonParse w stdout = inr metadata
           /\ JsValue.getProp metadata "target_directory" = inr (VStr d)
           /\ depsPath s' =
                Some (join [d; "wasm32-unknown-unknown"; cargoTargetDirName opts;
                            rustName r ++ ".d"])
           /\ (cargoTargetDirName opts = "release" \/ cargoTargetDirName opts = "debug")
     | inl _ => depsPath s' = depsPath s
     end
  /\ (forall stdout metadata,
        execFile w (log s) "cargo" ["metadata"; "--format-version"; "1"]
                 {| cwd := Some (cargoDir r); maxBuffer := Some (1024 * 1024)%N |}
          = inr stdout ->
        jsonParse w stdout = inr metadata ->
        (forall d, JsValue.getProp metadata "target_directory" <> inr (VStr d)) ->
        exists e, fst (wasmPostProcess w this r s) = inl e).
Proof. exact (wasmPostProcess_outcomes path w this r s opts). Qed.

Lemma output_resolution_outcomes_witness :
  depsPath (snd (@wasmPostProcess SimplePath.posix
                   (Demo.world None None true false true "") Demo.libRs
                   {| outDir := "/proj/pkg"; rustName := "demo_crate"; cargoDir := "/proj" |}
                   initial)) = None
  /\ wasmPath (snd (@wasmPostProcess SimplePath.posix
                      (Demo.world None None true false true "") Demo.libRs
                      {| outDir := "/proj/pkg"; rustName := "demo_crate";
                         cargoDir := "/proj" |}
                      initial)) = Some "../pkg/demo_crate_bg.wasm".
Proof.
  destruct (output_resolution_outcomes SimplePath.posix
              (Demo.world None None true false true "") Demo.libRs
              {| outDir := "/proj/pkg"; rustName := "demo_crate"; cargoDir := "/proj" |}
              initial _ eq_refl) as (_ & _ & H3 & _ & H5 & _).
  split; [exact H5 | exact H3].
Defined.

(* ================================================================== *)
(** ** [parse] as a whole *)
(* ================================================================== *)

Section ParseAsAWhole.

Context {path : PathModule}.
Variable w : World.
Variable this : Asset.

(** The check on any value a manifest may parse to. *)
Lemma crateTypeCheck_any cargoConfig s :
  crateTypeCheck cargoConfig s =
    (match JsValue.getProp cargoConfig "lib" with
     | inl e => inl e
     | inr _ => if declaresCdylib cargoConfig then inr cargoConfig
                else inl (Thrown crateTypeMessage)
     end, s).
Proof.
  destruct cargoConfig; try reflexivity.
  rewrite crateTypeCheck_run. reflexivity.
Qed.

Lemma parse_any code s :
  isTargetRust this = true ->
  parse w this code s =
    match getConfig w (name this) ["Cargo.toml"] with
    | inl e => (inl e, s)
    | inr cargoConfig =>
        match resolve w (name this) ["Cargo.toml"] with
        | None => (inl (TypeError "The path argument must be of type string"), s)
        | Some file =>
            match JsValue.getProp cargoConfig "lib" with
            | inl e => (inl e, s)
            | inr _ =>
                if declaresCdylib cargoConfig then
                  match build w this cargoConfig (dirname file)
                              (commandExists w "wasm-pack") (commandExists w "cargo")
                              (commandExists w "wasm-bindgen") (afterProbes s) with
                  | (inl e, s') => (inl e, s')
                  | (inr r, s') =>
                      match wasmPostProcess w this r s' with
                      | (inl e, s'') => (inl e, s'')
                      | (inr _, s'') => (inr VUndefined, s'')
                      end
                  end
                else (inl (Thrown crateTypeMessage), s)
            end
        end
    end.
Proof.
  intros Hr. unfold parse. rewrite Hr. cbn [negb].
  unfold bind at 1. unfold lift at 1.
  destruct (getConfig w (name this) ["Cargo.toml"]) as [e | cfg]; [reflexivity|].
  unfold bind at 1.
  destruct (resolve w (name this) ["Cargo.toml"]) as [file|]; [|reflexivity].
  unfold ret at 1. unfold bind at 1. rewrite crateTypeCheck_any.
  destruct (JsValue.getProp cfg "lib") as [e | lib]; [reflexivity|].
  destruct (declaresCdylib cfg); [|reflexivity].
  unfold bind, ret. rewrite !cmdExists_run. fold (afterProbes s).
  destruct (build _ _ _ _ _ _ _ _) as [[e | r] s']; [reflexivity|].
  destruct (wasmPostProcess w this r s') as [[e | []] s'']; reflexivity.
Qed.

Lemma buildCall_in_dir dir cmd args :
  isTool cmd = true -> buildCall dir (Exec cmd args (inDir dir)) = true.
Proof. intros H. simpl. now rewrite H, String.eqb_refl. Qed.

Lemma build_calls cargoConfig dir hp hc hb s :
  exists l,
    log (snd (build w this cargoConfig dir hp hc hb s)) = (log s ++ l)%list
    /\ forallb (buildCall dir) l = true.
Proof.
  unfold build. destruct hp; [|destruct hc; [destruct hb|]].
  - rewrite wasmPackBuild_run. destruct (buildOpts w) as [e | opts].
    + exists [helpCall]. split; reflexivity.
    + cbv zeta.
      exists [helpCall; packCall w this (log s) dir (hc && hb) (wasmPackProfile opts)].
      split.
      * destruct (execFile w _ "wasm-pack" _ _); [|destruct (crateName cargoConfig)];
          cbn [snd log logged]; now rewrite <- app_assoc.
      * unfold packCall. cbn [forallb]. rewrite buildCall_in_dir by reflexivity. reflexivity.
  - rewrite rawBuild_catch, rawBuildSteps_run.
    destruct (buildOpts w) as [e | opts]; [exists []; now rewrite app_nil_r|].
    cbv zeta.
    destruct (execFile w (log s) "cargo" _ _) as [e | out];
      [eexists; split; [reflexivity|]; cbn [forallb app];
       rewrite buildCall_in_dir by reflexivity; reflexivity|].
    destruct (execFile w _ "cargo" _ _) as [e | stdout];
      [eexists; split; [cbn [snd log logged]; rewrite <- app_assoc; reflexivity|];
       cbn [forallb app]; rewrite !buildCall_in_dir by reflexivity; reflexivity|].
    destruct (targetDirectory w stdout) as [e | d];
      [eexists; split; [cbn [snd log logged]; rewrite <- app_assoc; reflexivity|];
       cbn [forallb app]; rewrite !buildCall_in_dir by reflexivity; reflexivity|].
    destruct (crateName cargoConfig) as [e | n];
      [eexists; split; [cbn [snd log logged]; rewrite <- app_assoc; reflexivity|];
       cbn [forallb app]; rewrite !buildCall_in_dir by reflexivity; reflexivity|].
    destruct (execFile w _ "wasm-bindgen" _ _) as [e | out'];
      (eexists; split; [cbn [snd log logged]; rewrite <- !app_assoc; reflexivity|];
       cbn [forallb app]; rewrite !buildCall_in_dir by reflexivity; reflexivity).
  - exists []. now rewrite app_nil_r.
  - exists []. now rewrite app_nil_r.
Qed.

Lemma wasmPostProcess_calls r s :
  exists l,
    log (snd (wasmPostProcess w this r s)) = (log s ++ l)%list
    /\ forallb (buildCall (cargoDir r)) l = true.
Proof.
  destruct (buildOpts w) as [e | opts] eqn:Eo.
  - rewrite (wasmPostProcess_bad_profile w this r s e Eo). exists []. now rewrite app_nil_r.
  - destruct (wasmPostProcess_outcomes path w this r s opts Eo) as (_ & _ & _ & L & _).
    exists [metadataCall (cargoDir r)]. split; [exact L|].
    simpl. now rewrite String.eqb_refl.
Qed.

End ParseAsAWhole.

(** What [parse] appends to the log.  (The log holds the calls the class
    makes to the executables and to [./lib]; what the bundler's [getConfig]
    does on its own is not in it.) *)
Lemma parse_log_calls
        (path : PathModule) (w : World) (this : Asset) (code : string) (s : AssetState) :
  exists l,
    log (snd (parse w this code s)) = (log s ++ l)%list
    /\ forallb (buildCall (crateDir w this)) l = true.
Proof.
  destruct (isTargetRust this) eqn:Hr.
  2:{ rewrite (parse_not_crate w this code s Hr). exists [].
      rewrite app_nil_r. now destruct (isNormalTOML this). }
  rewrite (parse_any w this code s Hr). unfold crateDir.
  destruct (getConfig w (name this) ["Cargo.toml"]) as [e | cfg];
    [exists []; now rewrite app_nil_r|].
  destruct (resolve w (name this) ["Cargo.toml"]) as [file|];
    [|exists []; now rewrite app_nil_r].
  destruct (JsValue.getProp cfg "lib") as [e | lib]; [exists []; now rewrite app_nil_r|].
  destruct (declaresCdylib cfg); [|exists []; now rewrite app_nil_r].
  destruct (build_calls w this cfg (dirname file) (commandExists w "wasm-pack")
              (commandExists w "cargo") (commandExists w "wasm-bindgen") (afterProbes s))
    as (l1 & L1 & P1).
  destruct (build w this cfg (dirname file) _ _ _ (afterProbes s)) as [[e | r] s'] eqn:Eb.
  - exists (probes ++ l1)%list. cbn [snd] in *. rewrite L1, log_afterProbes.
    split; [now rewrite app_assoc|]. rewrite forallb_app, P1. reflexivity.
  - destruct (build_result_shape path w this cfg (dirname file) _ _ _ _ _ _ Eb)
      as (_ & _ & _ & _ & _ & _ & _ & _ & D & _).
    destruct (wasmPostProcess_calls w this r s') as (l2 & L2 & P2). rewrite D in P2.
    cbn [snd] in L1.
    exists (probes ++ l1 ++ l2)%list. split.
    + destruct (wasmPostProcess w this r s') as [[e | []] s'']; cbn [snd] in *;
        rewrite L2, L1, log_afterProbes; now rewrite !app_assoc.
    + rewrite !forallb_app, P1, P2. reflexivity.
Qed.

(** Where the log of [parse] starts to grow. *)
Lemma parse_log_quiet_or_probes
        (path : PathModule) (w : World) (this : Asset) (code : string) (s : AssetState) :
  snd (parse w this code s) = s
  \/ (isTargetRust this = true
      /\ exists cargoConfig file l,
           getConfig w (name this) ["Cargo.toml"] = inr cargoConfig
           /\ resolve w (name this) ["Cargo.toml"] = Some file
           /\ declaresCdylib cargoConfig = true
           /\ log (snd (parse w this code s)) =
                (log s ++ [Probe "wasm-pack"; Probe "cargo"; Probe "wasm-bindgen"] ++ l)%list).
Proof.
  destruct (isTargetRust this) eqn:Hr.
  2:{ left. rewrite (parse_not_crate w this code s Hr). now destruct (isNormalTOML this). }
  rewrite (parse_any w this code s Hr).
  destruct (getConfig w (name this) ["Cargo.toml"]) as [e | cfg] eqn:Ec; [now left|].
  destruct (resolve w (name this) ["Cargo.toml"]) as [file|] eqn:Ef; [|now left].
  destruct (JsValue.getProp cfg "lib") as [e | lib]; [now left|].
  destruct (declaresCdylib cfg) eqn:Ed; [|now left].
  right. split; [reflexivity|].
  destruct (build_calls w this cfg (dirname file) (commandExists w "wasm-pack")
              (commandExists w "cargo") (commandExists w "wasm-bindgen") (afterProbes s))
    as (l1 & L1 & _).
  destruct (build w this cfg (dirname file) _ _ _ (afterProbes s)) as [[e | r] s'] eqn:Eb.
  - exists cfg, file, l1. repeat split; try assumption. cbn [snd] in *.
    rewrite L1, log_afterProbes. now rewrite <- app_assoc.
  - destruct (wasmPostProcess_calls w this r s') as (l2 & L2 & _). cbn [snd] in L1.
    exists cfg, file, (l1 ++ l2)%list. repeat split; try assumption.
    destruct (wasmPostProcess w this r s') as [[e | []] s'']; cbn [snd] in *;
      rewrite L2, L1, log_afterProbes; now rewrite <- !app_assoc.
Qed.

Lemma forallb_filter {A} (P Q : A -> bool) (l : list A) :
  forallb P l = true -> forallb P (filter Q l) = true.
Proof.
  induction l as [|x l IH]; [reflexivity|].
  simpl. intros H. apply andb_prop in H. destruct H as [Hx Hl].
  destruct (Q x); simpl; [now rewrite Hx, IH | now apply IH].
Qed.

(** Whatever the host answers, every executable [parse] probes or starts is
    wasm-pack, cargo or wasm-bindgen, and every one it starts runs in the
    directory of the crate's manifest, but for the help probe of wasm-pack:
    it starts no other executable, and none elsewhere. *)
Theorem parse_starts_only_the_tools
        (path : PathModule) (w : World) (this : Asset) (code : string) (s : AssetState) :
  exists l,
    log (snd (parse w this code s)) = (log s ++ l)%list
    /\ forallb (buildCall (crateDir w this)) (filter isToolCall l) = true.
Proof.
  destruct (parse_log_calls path w this code s) as (l & L & P).
  exists l. split; [exact L | now apply forallb_filter].
Qed.

(** [parse] probes no tool, starts no executable and leaves the four paths
    of the asset as they were, unless it has met a [.rs] file or a
    [Cargo.toml] whose manifest was loaded, located and declares [cdylib];
    then the first executables it turns to are the three tools it probes, in
    the order wasm-pack, cargo, wasm-bindgen. *)
Theorem parse_probes_only_for_a_cdylib
        (path : PathModule) (w : World) (this : Asset) (code : string) (s : AssetState) :
  exists l,
    log (snd (parse w this code s)) = (log s ++ l)%list
    /\ ((filter isToolCall l = []
         /\ jsPath (snd (parse w this code s)) = jsPath s
         /\ jsAltPath (snd (parse w this code s)) = jsAltPath s
         /\ wasmPath (snd (parse w this code s)) = wasmPath s
         /\ depsPath (snd (parse w this code s)) = depsPath s)
        \/ (isTargetRust this = true
            /\ exists cargoConfig file l',
                 getConfig w (name this) ["Cargo.toml"] = inr cargoConfig
                 /\ resolve w (name this) ["Cargo.toml"] = Some file
                 /\ declaresCdylib cargoConfig = true
                 /\ filter isToolCall l =
                      ([Probe "wasm-pack"; Probe "cargo"; Probe "wasm-bindgen"] ++ l')%list)).
Proof.
  destruct (parse_log_quiet_or_probes path w this code s)
    as [Q | (Hr & cfg & file & l0 & Hc & Hf & Hd & L)].
  - exists []. rewrite Q, app_nil_r. split; [reflexivity|]. left. repeat split.
  - exists ([Probe "wasm-pack"; Probe "cargo"; Probe "wasm-bindgen"] ++ l0)%list.
    split; [exact L|]. right. split; [exact Hr|].
    exists cfg, file, (filter isToolCall l0). repeat split; assumption.
Qed.

Lemma parse_probes_only_for_a_cdylib_witness :
  filter isToolCall
    (calls (@parse SimplePath.posix
              (Demo.withManifest Demo.binManifest (Demo.world None None true true true ""))
              Demo.libRs "")) = [].
Proof.
  destruct (parse_probes_only_for_a_cdylib SimplePath.posix
              (Demo.withManifest Demo.binManifest (Demo.world None None true true true ""))
              Demo.libRs "" initial) as (l & L & [(Q & _) | (_ & cfg & file & l' & Hc & _ & Hd & _)]).
  - reflexivity.
  - injection Hc as <-. discriminate Hd.
Defined.

(** A [parse] of a [.rs] file or a [Cargo.toml] that returns, returns
    [undefined], and it has gone the whole way: the manifest was loaded and
    located and declares [cdylib], the strategy picked by the three probes
    built the crate in the manifest's directory and returned the module name
    read off [package.name], and [cargo metadata], its last call, answered
    with a [target_directory].  All four paths of the asset are then set: the
    three output paths, relative to the asset, under the output directory of
    that build ([pkg] in the crate directory after Strategy A), and the path
    of the dependency manifest under the target directory, the Rust target
    and [release] or [debug].  A dependency extraction that follows reads
    exactly the file at that fourth path. *)
Theorem parse_success_sets_the_paths
        (path : PathModule) (w : World) (this : Asset) (code : string)
        (s s' : AssetState) (v : value) :
  isTargetRust this = true ->
  parse w this code s = (inr v, s') ->
  v = VUndefined
  /\ exists cargoConfig file r s1 opts pkg raw stdout metadata d,
       getConfig w (name this) ["Cargo.toml"] = inr cargoConfig
       /\ resolve w (name this) ["Cargo.toml"] = Some file
       /\ declaresCdylib cargoConfig = true
       /\ build w this cargoConfig (dirname file)
                (commandExists w "wasm-pack") (commandExists w "cargo")
                (commandExists w "wasm-bindgen") (afterProbes s) = (inr r, s1)
       /\ JsValue.getProp cargoConfig "package" = inr pkg
       /\ JsValue.getProp pkg "name" = inr (VStr raw)
       /\ rustName r = JsString.replaceAllChar "-" "_" raw
       /\ cargoDir r = dirname file
       /\ (commandExists w "wasm-pack" = true -> outDir r = join [dirname file; "pkg"])
       /\ buildOpts w = inr opts
       /\ execFile w (log s1) "cargo" ["metadata"; "--format-version"; "1"]
                   {| cwd := Some (dirname file); maxBuffer := Some (1024 * 1024)%N |}
            = inr stdout
       /\ jsonParse w stdout = inr metadata
       /\ JsValue.getProp metadata "target_directory" = inr (VStr d)
       /\ jsPath s' = Some (getPath this (outDir r) (rustName r ++ ".js"))
       /\ jsAltPath s' = Some (getPath this (outDir r) (rustName r ++ "_bg.js"))
       /\ wasmPath s' = Some (getPath this (outDir r) (rustName r ++ "_bg.wasm"))
       /\ depsPath s' =
            Some (join [d; "wasm32-unknown-unknown"; cargoTargetDirName opts;
                        rustName r ++ ".d"])
       /\ (cargoTargetDirName opts = "release" \/ cargoTargetDirName opts = "debug")
       /\ log s' = (log s1 ++ [metadataCall (dirname file)])%list
       /\ (exists l,
             log s1 =
               (log s ++ [Probe "wasm-pack"; Probe "cargo"; Probe "wasm-bindgen"] ++ l)%list)
       /\ forall contents deps,
            readFile w (join [d; "wasm32-unknown-unknown"; cargoTargetDirName opts;
                              rustName r ++ ".d"]) = inr contents ->
            depsOf contents = Some deps ->
            collectDependencies w this s' =
              (inr VUndefined,
               loggedAll
                 (ReadFile (join [d; "wasm32-unknown-unknown"; cargoTargetDirName opts;
                                  rustName r ++ ".d"])
                  :: dependencyCalls this deps) s').
Proof.
  intros Hr. rewrite (parse_any w this code s Hr).
  destruct (getConfig w (name this) ["Cargo.toml"]) as [e | cfg]; [discriminate|].
  destruct (resolve w (name this) ["Cargo.toml"]) as [file|]; [|discriminate].
  destruct (JsValue.getProp cfg "lib") as [e | lib]; [discriminate|].
  destruct (declaresCdylib cfg) eqn:Ed; [|discriminate].
  destruct (build_calls w this cfg (dirname file) (commandExists w "wasm-pack")
              (commandExists w "cargo") (commandExists w "wasm-bindgen") (afterProbes s))
    as (l1 & L1 & _).
  destruct (build w this cfg (dirname file) _ _ _ (afterProbes s)) as [[e | r] s1] eqn:Eb;
    [discriminate|].
  destruct (build_result_shape path w this cfg (dirname file) _ _ _ _ _ _ Eb)
    as (pkg & raw & Hp & Hn & Hrn & _ & _ & _ & D & Hout).
  destruct (build_ok_opts w this cfg (dirname file) _ _ _ _ _ _ Eb) as (opts & Ho).
  pose proof (wasmPostProcess_outcomes path w this r s1 opts Ho) as O. cbv zeta in O.
  destruct (wasmPostProcess w this r s1) as [[e | []] s2]; [discriminate|].
  intros H. injection H as <- <-. cbn [fst snd] in *.
  destruct O as (O1 & O2 & O3 & O4 & (stdout & md & d & Ex & Ej & Eg & O5 & Hrow) & _).
  rewrite D in Ex, O4.
  split; [reflexivity|].
  exists cfg, file, r, s1, opts, pkg, raw, stdout, md, d.
  repeat match goal with
         | |- _ /\ _ => split
         end; try assumption; try reflexivity.
  - exists l1. rewrite L1, log_afterProbes. now rewrite <- app_assoc.
  - intros contents deps Hf Hd.
    now apply (collectDependencies_run w this s2 _ contents deps Hr O5 Hf Hd).
Qed.

Lemma parse_success_sets_the_paths_witness :
  exists s',
    @parse SimplePath.posix (Demo.world None None true true true "") Demo.libRs "" initial
      = (inr VUndefined, s')
    /\ wasmPath s' = Some "../pkg/demo_crate_bg.wasm"
    /\ depsPath s' = Some "/proj/target/wasm32-unknown-unknown/release/demo_crate.d".
Proof.
  eexists. split; [reflexivity|].
  destruct (parse_success_sets_the_paths SimplePath.posix
              (Demo.world None None true true true "") Demo.libRs "" initial _ _
              eq_refl eq_refl)
    as (_ & cfg & file & r & s1 & opts & pkg & raw & stdout & md & d & _).
  split; reflexivity.
Defined.

(** On a host without wasm-pack that has cargo and wasm-bindgen, a profile
    override the resolver does not know is not reported as such: [parse]
    throws the uniform string of the fallback, and the three probes are the
    only calls it made. *)
Theorem fallback_hides_the_profile_error
        (path : PathModule) (w : World) (this : Asset) (code : string)
        (fields : list (string * value)) (file : string) (e : exn) :
  isTargetRust this = true ->
  getConfig w (name this) ["Cargo.toml"] = inr (VObj fields) ->
  resolve w (name this) ["Cargo.toml"] = Some file ->
  declaresCdylib (VObj fields) = true ->
  commandExists w "wasm-pack" = false ->
  commandExists w "cargo" = true ->
  commandExists w "wasm-bindgen" = true ->
  buildOpts w = inl e ->
  outcome (parse w this code) =
    inl (Thrown "Building failed... Please install wasm-pack and try again.")
  /\ calls (parse w this code) = [Probe "wasm-pack"; Probe "cargo"; Probe "wasm-bindgen"].
Proof.
  intros Hr Hc Hf Hd Hp Hcargo Hb He. unfold outcome, calls.
  rewrite (parse_crate w this code fields file _ Hr Hc Hf), Hd, Hp, Hcargo, Hb.
  unfold build. rewrite (rawBuild_hides_profile_error path w this _ _ _ e He).
  split; reflexivity.
Qed.

Lemma fallback_hides_the_profile_error_witness :
  outcome (@parse SimplePath.posix (Demo.world (Some "fast") None false true true "")
                  Demo.libRs "") =
    inl (Thrown "Building failed... Please install wasm-pack and try again.").
Proof.
  exact (proj1 (fallback_hides_the_profile_error SimplePath.posix
                  (Demo.world (Some "fast") None false true true "") Demo.libRs ""
                  _ "/proj/Cargo.toml" _ eq_refl eq_refl eq_refl eq_refl
                  eq_refl eq_refl eq_refl eq_refl)).
Defined.

(* ================================================================== *)
(** ** [generate] *)
(* ================================================================== *)

(** For a bundle that does not target node, [generate] on a [.rs] file or a
    [Cargo.toml] makes no call and changes nothing: it returns one item of
    type [js] whose text imports the wasm path and re-exports the companion
    script.  After an output resolution that succeeded these are the two
    paths computed from the build; on an asset never parsed both read
    [undefined]. *)
Theorem generate_for_a_bundler
        (path : PathModule) (w : World) (this : Asset) (s : AssetState) :
  isTargetRust this = true ->
  isNode this = false ->
  generate w this s =
    (inr [ {| gen_type := "js";
              gen_value := glue (orUndefined (wasmPath s)) (orUndefined (jsAltPath s)) |} ],
     s)
  /\ (forall r s0,
        wasmPostProcess w this r s0 = (inr tt, s) ->
        generate w this s =
          (inr [ {| gen_type := "js";
                    gen_value := glue (getPath this (outDir r) (rustName r ++ "_bg.wasm"))
                                      (getPath this (outDir r) (rustName r ++ "_bg.js")) |} ],
           s))
  /\ (wasmPath s = None -> jsAltPath s = None ->
      generate w this s =
        (inr [ {| gen_type := "js"; gen_value := glue "undefined" "undefined" |} ], s)).
Proof.
  intros Hr Hn.
  assert (G : generate w this s =
              (inr [ {| gen_type := "js";
                        gen_value := glue (orUndefined (wasmPath s))
                                          (orUndefined (jsAltPath s)) |} ], s)).
  { unfold generate. rewrite Hr, Hn. reflexivity. }
  split; [exact G|]. split.
  - intros r s0 H. rewrite G.
    destruct (buildOpts w) as [e | opts] eqn:Eo.
    + rewrite (wasmPostProcess_bad_profile w this r s0 e Eo) in H. discriminate.
    + pose proof (wasmPostProcess_outcomes path w this r s0 opts Eo) as O.
      cbv zeta in O. rewrite H in O. cbn [snd] in O.
      destruct O as (_ & O2 & O3 & _). now rewrite O2, O3.
  - intros H1 H2. rewrite G, H1, H2. reflexivity.
Qed.

Lemma generate_for_a_bundler_witness :
  fst (@generate SimplePath.posix (Demo.world None None true true true "") Demo.libRs
         (snd (@parse SimplePath.posix (Demo.world None None true true true "")
                      Demo.libRs "" initial))) =
    inr [ {| gen_type := "js";
             gen_value := glue "../pkg/demo_crate_bg.wasm" "../pkg/demo_crate_bg.js" |} ].
Proof.
  exact (f_equal fst
           (proj1 (generate_for_a_bundler SimplePath.posix
                     (Demo.world None None true true true "") Demo.libRs
                     (snd (@parse SimplePath.posix (Demo.world None None true true true "")
                                  Demo.libRs "" initial))
                     eq_refl eq_refl))).
Defined.

(** For a bundle that targets node, [generate] on an asset whose loader path
    is set reads the file at that path and returns its text as it is, in one
    item of type [js]; a failure of the read is thrown on.  After an output
    resolution that succeeded the path read is the one it set for the loader
    script: a path relative to the asset's directory. *)
Theorem generate_for_node
        (path : PathModule) (w : World) (this : Asset) (s : AssetState) (file : string) :
  isTargetRust this = true ->
  isNode this = true ->
  jsPath s = Some file ->
  generate w this s =
    (match readFile w file with
     | inl e => inl e
     | inr text => inr [ {| gen_type := "js"; gen_value := text |} ]
     end, logged (ReadFile file) s)
  /\ (forall r s0,
        wasmPostProcess w this r s0 = (inr tt, s) ->
        file = getPath this (outDir r) (rustName r ++ ".js")).
Proof.
  intros Hr Hn Hf. split.
  - unfold generate. rewrite Hr, Hn.
    unfold bind, get, record, lift, ret. rewrite Hf.
    destruct (readFile w file); reflexivity.
  - intros r s0 H.
    destruct (buildOpts w) as [e | opts] eqn:Eo.
    + rewrite (wasmPostProcess_bad_profile w this r s0 e Eo) in H. discriminate.
    + pose proof (wasmPostProcess_outcomes path w this r s0 opts Eo) as O.
      cbv zeta in O. rewrite H in O. destruct O as (O1 & _). cbn [snd] in O1.
      rewrite Hf in O1. now injection O1.
Qed.

(** The theorem on the asset of the demo crate, parsed for node on a host
    whose [pkg] directory holds the loader script. *)
Lemma generate_for_node_witness :
  let w := Demo.withFiles Demo.pkgFiles (Demo.world None None true true true "") in
  let asset := {| name := "/proj/src/lib.rs"; options := Demo.node |} in
  let parsed := snd (@parse SimplePath.posix w asset "" initial) in
  @generate SimplePath.posix w asset parsed =
    (inr [ {| gen_type := "js";
              gen_value := "module.exports = require('./demo_crate_bg.js');" |} ],
     logged (ReadFile "../pkg/demo_crate.js") parsed).
Proof.
  cbv zeta.
  exact (proj1 (generate_for_node SimplePath.posix
                  (Demo.withFiles Demo.pkgFiles (Demo.world None None true true true ""))
                  {| name := "/proj/src/lib.rs"; options := Demo.node |}
                  (snd (@parse SimplePath.posix
                          (Demo.withFiles Demo.pkgFiles
                             (Demo.world None None true true true ""))
                          {| name := "/proj/src/lib.rs"; options := Demo.node |} "" initial))
                  "../pkg/demo_crate.js" eq_refl eq_refl eq_refl)).
Defined.

(* ================================================================== *)
(** ** Dependency extraction on any manifest *)
(* ================================================================== *)

Section AnyManifest.

Import Plain.

Lemma occurs_allChars c s :
  JsString.occurs c s = false -> allChars (fun x => negb (Ascii.eqb x c)) s = true.
Proof.
  induction s as [|x s IH]; [reflexivity|].
  simpl. destruct (Ascii.eqb x c); [discriminate|]. exact IH.
Qed.

Lemma occurs_app c s t :
  JsString.occurs c (s ++ t) = JsString.occurs c s || JsString.occurs c t.
Proof.
  induction s as [|x s IH]; [reflexivity|]. simpl. now rewrite IH, orb_assoc.
Qed.

(** *** [trim] around a colon *)

Lemma trimStart_app t c r :
  JsString.isWhiteSpace c = false ->
  JsString.trimStart (t ++ String c r) = JsString.trimStart t ++ String c r.
Proof.
  intros Hc. induction t as [|x t IH].
  - simpl. now rewrite Hc.
  - simpl. destruct (JsString.isWhiteSpace x); [exact IH | reflexivity].
Qed.

Lemma trimEnd_cons c u :
  JsString.isWhiteSpace c = false ->
  JsString.trimEnd (String c u) = String c (JsString.trimEnd u).
Proof. intros Hc. simpl. rewrite Hc. now destruct (JsString.trimEnd u). Qed.

Lemma trimEnd_app s t :
  JsString.trimEnd t <> "" -> JsString.trimEnd (s ++ t) = s ++ JsString.trimEnd t.
Proof.
  intros N. induction s as [|x s IH]; [reflexivity|].
  simpl. rewrite IH. destruct (s ++ JsString.trimEnd t) eqn:E; [|reflexivity].
  destruct s; simpl in E; [contradiction | discriminate].
Qed.

Lemma occurs_trimStart c s :
  JsString.isWhiteSpace c = false ->
  JsString.occurs c (JsString.trimStart s) = JsString.occurs c s.
Proof.
  intros Hc. induction s as [|x s IH]; [reflexivity|].
  simpl. destruct (JsString.isWhiteSpace x) eqn:Hx; [|reflexivity].
  rewrite IH. destruct (Ascii.eqb_spec x c) as [->|]; [congruence | reflexivity].
Qed.

Lemma occurs_trimEnd c s :
  JsString.isWhiteSpace c = false ->
  JsString.occurs c (JsString.trimEnd s) = JsString.occurs c s.
Proof.
  intros Hc. induction s as [|x s IH]; [reflexivity|].
  simpl. destruct (JsString.trimEnd s) eqn:E.
  - simpl in IH. rewrite <- IH, orb_false_r.
    destruct (JsString.isWhiteSpace x) eqn:Hx; simpl.
    + destruct (Ascii.eqb_spec x c) as [->|]; [congruence | reflexivity].
    + now rewrite orb_false_r.
  - simpl. simpl in IH. now rewrite IH.
Qed.

Lemma trim_around_colon t r :
  JsString.trim (t ++ ":" ++ r) = JsString.trimStart t ++ ":" ++ JsString.trimEnd r.
Proof.
  unfold JsString.trim. change (t ++ ":" ++ r) with (t ++ String ":" r).
  rewrite trimStart_app by reflexivity.
  rewrite trimEnd_app; rewrite trimEnd_cons by reflexivity; [reflexivity | discriminate].
Qed.

(** *** [split(':')] *)

Lemma split_two s :
  JsString.occurs ":" s = true ->
  exists a b rest, JsString.split ":" s = a :: b :: rest.
Proof.
  induction s as [|x s IH]; [discriminate|].
  simpl. destruct (Ascii.eqb x ":").
  - intros _. destruct (JsString.split ":" s) as [|b rest] eqn:E.
    + destruct s; simpl in E; [discriminate|].
      destruct (Ascii.eqb a ":"); [discriminate|].
      destruct (JsString.split ":" s); discriminate.
    + now exists "", b, rest.
  - simpl. intros H. destruct (IH H) as (a & b & rest & ->). now exists (String x a), b, rest.
Qed.

(** The method throws on a manifest exactly when it holds no colon. *)
Lemma depsOf_none contents :
  depsOf contents = None <-> JsString.occurs ":" contents = false.
Proof.
  unfold depsOf.
  assert (T : JsString.occurs ":" (JsString.trim contents) = JsString.occurs ":" contents).
  { unfold JsString.trim. now rewrite occurs_trimEnd, occurs_trimStart. }
  split.
  - intros H. destruct (JsString.occurs ":" contents) eqn:E; [|reflexivity].
    destruct (split_two _ T) as (a & b & rest & S).
    rewrite S in H. discriminate.
  - intros H. rewrite H in T.
    now rewrite (split_none _ (occurs_allChars _ _ T)).
Qed.

(** What the method reads is the text between the first colon and the
    second, or the end. *)
Lemma depsOf_one_rule t r :
  JsString.occurs ":" t = false ->
  JsString.occurs ":" r = false ->
  depsOf (t ++ ":" ++ r) =
    Some (map (fun x => JsString.replaceFirst "\ " "" (JsString.trim x))
              (JsString.splitWordSpace (JsString.trimEnd r))).
Proof.
  intros Ht Hr. unfold depsOf. rewrite trim_around_colon.
  rewrite split_first.
  2:{ apply occurs_allChars. now rewrite occurs_trimStart. }
  rewrite split_none.
  2:{ apply occurs_allChars. now rewrite occurs_trimEnd. }
  reflexivity.
Qed.

Lemma depsOf_first_rule t r u :
  JsString.occurs ":" t = false ->
  JsString.occurs ":" r = false ->
  depsOf (t ++ ":" ++ r ++ ":" ++ u) =
    Some (map (fun x => JsString.replaceFirst "\ " "" (JsString.trim x))
              (JsString.splitWordSpace r)).
Proof.
  intros Ht Hr. unfold depsOf.
  change (t ++ ":" ++ r ++ ":" ++ u) with (t ++ ":" ++ (r ++ String ":" u)).
  rewrite trim_around_colon.
  rewrite trimEnd_app; rewrite trimEnd_cons by reflexivity; [|discriminate].
  rewrite split_first.
  2:{ apply occurs_allChars. now rewrite occurs_trimStart. }
  change (r ++ String ":" (JsString.trimEnd u)) with (r ++ ":" ++ JsString.trimEnd u).
  rewrite split_first by now apply occurs_allChars.
  reflexivity.
Qed.

Lemma trimEnd_white r :
  allChars JsString.isWhiteSpace r = true -> JsString.trimEnd r = "".
Proof.
  induction r as [|c r IH]; [reflexivity|].
  simpl. intros H. apply andb_prop in H. destruct H as [Hc Hr].
  now rewrite (IH Hr), Hc.
Qed.

Lemma white_no_colon r :
  allChars JsString.isWhiteSpace r = true -> JsString.occurs ":" r = false.
Proof.
  induction r as [|c r IH]; [reflexivity|].
  simpl. intros H. apply andb_prop in H. destruct H as [Hc Hr].
  rewrite (IH Hr), orb_false_r.
  destruct (Ascii.eqb_spec c ":") as [->|]; [discriminate Hc | reflexivity].
Qed.

(** *** [split(/\b\ /g)] loses nothing *)

Lemma concat_consHead c l :
  l <> [] ->
  String.concat " " (JsString.consHead c l) = String c (String.concat " " l).
Proof. destruct l as [|h [|h' t]]; [contradiction | reflexivity | reflexivity]. Qed.

Lemma concat_splitWordSpaceFrom b s :
  String.concat " " (JsString.splitWordSpaceFrom b s) = s.
Proof.
  revert b. induction s as [|c s IH]; intros b; [reflexivity|].
  simpl. destruct (b && Ascii.eqb c " ") eqn:E.
  - apply andb_prop in E. destruct E as [_ E]. apply Ascii.eqb_eq in E. subst c.
    pose proof (splitWordSpaceFrom_nonempty false s) as N.
    specialize (IH false).
    destruct (JsString.splitWordSpaceFrom false s) as [|h t]; [contradiction|].
    simpl in *. now rewrite IH.
  - rewrite concat_consHead by apply splitWordSpaceFrom_nonempty. now rewrite IH.
Qed.

End AnyManifest.

(** The cut at the spaces behind word characters loses nothing and invents
    nothing: it never yields an empty list, and the pieces joined by single
    spaces are the text that was cut. *)
Theorem split_pieces_join_back (s : string) :
  JsString.splitWordSpace s <> []
  /\ String.concat " " (JsString.splitWordSpace s) = s.
Proof.
  split; [apply splitWordSpaceFrom_nonempty | apply concat_splitWordSpaceFrom].
Qed.

Section Extraction.

Context {path : PathModule}.
Variable w : World.
Variable this : Asset.

Lemma dependencyCalls_allowed deps :
  forallb (dependencyCall (name this)) (dependencyCalls this deps) = true.
Proof.
  unfold dependencyCalls. induction deps as [|d deps IH]; [reflexivity|].
  simpl. destruct (String.eqb d (name this)) eqn:E; [exact IH|].
  simpl. now rewrite E, IH.
Qed.

Lemma collectDependencies_throws s file contents :
  isTargetRust this = true ->
  depsPath s = Some file ->
  readFile w file = inr contents ->
  depsOf contents = None ->
  collectDependencies w this s =
    (inl (TypeError "Cannot read property 'split' of undefined"), logged (ReadFile file) s).
Proof.
  intros Hr Hd Hf Hp. unfold collectDependencies. rewrite Hr. simpl.
  unfold bind, get, record, lift, throw. rewrite Hd. cbn [depsPath logged].
  now rewrite Hf, Hp.
Qed.

End Extraction.

(** Whatever the manifest holds and whatever the host answers, a dependency
    extraction only adds to the log, at most the read of the manifest
    followed by added dependencies; every dependency it adds is flagged as
    included in its parent, and none of them is the asset itself.  It leaves
    the four paths of the asset as they were. *)
Theorem extraction_never_adds_the_asset
        (path : PathModule) (w : World) (this : Asset) (s : AssetState) :
  let s' := snd (collectDependencies w this s) in
  (exists l,
     log s' = (log s ++ l)%list
     /\ forallb (dependencyCall (name this)) l = true
     /\ ~ In (name this) (added l)
     /\ (l = [] \/ exists file, depsPath s = Some file /\ hd_error l = Some (ReadFile file)))
  /\ jsPath s' = jsPath s /\ jsAltPath s' = jsAltPath s
  /\ wasmPath s' = wasmPath s /\ depsPath s' = depsPath s.
Proof.
  cbv zeta. unfold collectDependencies.
  destruct (isTargetRust this); cbn [negb].
  2:{ split; [|repeat split]. exists []. cbn [snd ret]. rewrite app_nil_r.
      split; [reflexivity|]. split; [reflexivity|]. split; [intros []|now left]. }
  unfold bind, get, record, lift, throw.
  destruct (depsPath s) as [file|] eqn:Ed.
  2:{ split; [|cbn [snd]; repeat split; now rewrite ?Ed].
      exists []. cbn [snd]. rewrite app_nil_r.
      split; [reflexivity|]. split; [reflexivity|]. split; [intros []|now left]. }
  destruct (readFile w file) as [e | contents].
  { split; [|cbn [snd logged]; repeat split; now rewrite ?Ed].
    exists [ReadFile file].
    split; [reflexivity|]. split; [reflexivity|]. split; [intros []|].
    right. now exists file. }
  destruct (depsOf contents) as [deps|].
  2:{ split; [|cbn [snd logged]; repeat split; now rewrite ?Ed].
      exists [ReadFile file].
      split; [reflexivity|]. split; [reflexivity|]. split; [intros []|].
      right. now exists file. }
  rewrite addDependencies_run. unfold ret. cbn [snd].
  split; [|cbn [loggedAll logged jsPath jsAltPath wasmPath depsPath];
           repeat split; now rewrite ?Ed].
  exists (ReadFile file :: dependencyCalls this deps).
  split; [|split; [|split]].
  - simpl. now rewrite <- app_assoc.
  - cbn [forallb dependencyCall]. apply dependencyCalls_allowed.
  - cbn [added]. intros H. apply added_iff in H. destruct H as [_ N]. now apply N.
  - right. now exists file.
Qed.

(** A dependency extraction throws a TypeError, after the read and with no
    dependency added, exactly when the manifest holds no colon; on a
    manifest with a colon it adds the pieces it finds, of which there is at
    least one. *)
Theorem extraction_needs_a_colon
        (path : PathModule) (w : World) (this : Asset) (s : AssetState)
        (file contents : string) :
  isTargetRust this = true ->
  depsPath s = Some file ->
  readFile w file = inr contents ->
  (JsString.occurs ":" contents = false ->
   collectDependencies w this s =
     (inl (TypeError "Cannot read property 'split' of undefined"), logged (ReadFile file) s))
  /\ (JsString.occurs ":" contents = true ->
      exists dep deps,
        depsOf contents = Some (dep :: deps)
        /\ collectDependencies w this s =
             (inr VUndefined,
              loggedAll (ReadFile file :: dependencyCalls this (dep :: deps)) s)).
Proof.
  intros Hr Hd Hf. split.
  - intros H. apply (collectDependencies_throws w this s file contents Hr Hd Hf).
    now apply depsOf_none.
  - intros H. destruct (depsOf contents) as [deps|] eqn:E.
    + destruct deps as [|dep deps].
      * exfalso. unfold depsOf in E.
        destruct (nth_error _ 1) as [rest|]; [|discriminate].
        injection E as E. apply map_eq_nil in E.
        now apply (splitWordSpaceFrom_nonempty false rest).
      * exists dep, deps. split; [reflexivity|].
        now apply (collectDependencies_run w this s file contents _ Hr Hd Hf).
    + apply depsOf_none in E. congruence.
Qed.

Lemma extraction_needs_a_colon_witness :
  fst (@collectDependencies SimplePath.posix
         (Demo.world None None true true true "no rule in here") Demo.libRs
         {| jsPath := None; jsAltPath := None; wasmPath := None;
            depsPath := Some Demo.depsFile; log := [] |}) =
    inl (TypeError "Cannot read property 'split' of undefined").
Proof.
  destruct (extraction_needs_a_colon SimplePath.posix
              (Demo.world None None true true true "no rule in here") Demo.libRs
              {| jsPath := None; jsAltPath := None; wasmPath := None;
                 depsPath := Some Demo.depsFile; log := [] |}
              Demo.depsFile "no rule in here" eq_refl eq_refl eq_refl) as (H & _).
  now rewrite (H eq_refl).
Defined.

(** A manifest whose one rule lists nothing (a target, a colon and at most
    white space) is not refused: its one piece is the empty string, which is
    added as a dependency of any asset with a name. *)
Theorem empty_rule_adds_the_empty_path
        (path : PathModule) (w : World) (this : Asset) (s : AssetState)
        (file target rest : string) :
  isTargetRust this = true ->
  depsPath s = Some file ->
  readFile w file = inr (target ++ ":" ++ rest) ->
  JsString.occurs ":" target = false ->
  Plain.allChars JsString.isWhiteSpace rest = true ->
  name this <> "" ->
  collectDependencies w this s =
    (inr VUndefined, loggedAll [ReadFile file; AddDependency "" true] s).
Proof.
  intros Hr Hd Hf Ht Hw Hn.
  rewrite (collectDependencies_run w this s file _ [""] Hr Hd Hf).
  - unfold dependencyCalls. destruct (name this) as [|c n]; [now contradiction Hn|].
    reflexivity.
  - rewrite (depsOf_one_rule target rest Ht (white_no_colon rest Hw)).
    now rewrite (trimEnd_white rest Hw).
Qed.

Lemma empty_rule_adds_the_empty_path_witness :
  @collectDependencies SimplePath.posix
     (Demo.world None None true true true "demo_crate.d: ") Demo.libRs
     {| jsPath := None; jsAltPath := None; wasmPath := None;
        depsPath := Some Demo.depsFile; log := [] |} =
    (inr VUndefined,
     {| jsPath := None; jsAltPath := None; wasmPath := None;
        depsPath := Some Demo.depsFile;
        log := [ReadFile Demo.depsFile; AddDependency "" true] |}).
Proof.
  apply (empty_rule_adds_the_empty_path SimplePath.posix
           (Demo.world None None true true true "demo_crate.d: ") Demo.libRs
           {| jsPath := None; jsAltPath := None; wasmPath := None;
              depsPath := Some Demo.depsFile; log := [] |}
           Demo.depsFile "demo_crate.d" " "); try reflexivity. discriminate.
Defined.

(** Of a manifest with several colons only the text between the first and
    the second is read: the dependencies added are the pieces of that text,
    whatever follows the second colon.  The piece in front of the second
    colon is taken whole, so it runs from the last path of the first rule
    into the target of the next. *)
Theorem only_the_first_rule_is_read
        (path : PathModule) (w : World) (this : Asset) (s : AssetState)
        (file target rule1 later : string) :
  isTargetRust this = true ->
  depsPath s = Some file ->
  readFile w file = inr (target ++ ":" ++ rule1 ++ ":" ++ later) ->
  JsString.occurs ":" target = false ->
  JsString.occurs ":" rule1 = false ->
  collectDependencies w this s =
    (inr VUndefined,
     loggedAll
       (ReadFile file ::
        dependencyCalls this
          (map (fun x => JsString.replaceFirst "\ " "" (JsString.trim x))
               (JsString.splitWordSpace rule1))) s).
Proof.
  intros Hr Hd Hf Ht H1.
  apply (collectDependencies_run w this s file _ _ Hr Hd Hf).
  now apply depsOf_first_rule.
Qed.

Lemma only_the_first_rule_is_read_witness :
  added (log (snd (@collectDependencies SimplePath.posix
     (Demo.world None None true true true
        ("demo_crate.d: /proj/src/lib.rs /proj/src/util.rs" ++ newline
         ++ "demo_crate.wasm: /proj/src/lib.rs /proj/src/other.rs"))
     Demo.libRs
     {| jsPath := None; jsAltPath := None; wasmPath := None;
        depsPath := Some Demo.depsFile; log := [] |}))) =
    ["/proj/src/util.rs" ++ newline ++ "demo_crate.wasm"].
Proof.
  rewrite (only_the_first_rule_is_read SimplePath.posix
             (Demo.world None None true true true
                ("demo_crate.d: /proj/src/lib.rs /proj/src/util.rs" ++ newline
                 ++ "demo_crate.wasm: /proj/src/lib.rs /proj/src/other.rs"))
             Demo.libRs
             {| jsPath := None; jsAltPath := None; wasmPath := None;
                depsPath := Some Demo.depsFile; log := [] |}
             Demo.depsFile "demo_crate.d"
             (" /proj/src/lib.rs /proj/src/util.rs" ++ newline ++ "demo_crate.wasm")
             " /proj/src/lib.rs /proj/src/other.rs"
             eq_refl eq_refl eq_refl eq_refl eq_refl).
  reflexivity.
Defined.

(* ================================================================== *)
(** ** The shape of an output path *)
(* ================================================================== *)

(** Whatever [path.relative] answers, the output path opens with a dot and
    holds one backslash less than the answer (none when the answer holds
    none).  When the answer holds no backslash the path is the answer itself
    if that opens with a dot, and the answer behind [./] if not: a directory
    whose name opens with a dot gets no [./] in front. *)
Theorem output_path_shape
        (path : PathModule) (this : Asset) (outDir_ relative_ : string) :
  JsString.head (getPath this outDir_ relative_) = Some "."%char
  /\ JsString.count "\" (getPath this outDir_ relative_) =
       pred (JsString.count "\" (relative (dirname (name this)) (join [outDir_; relative_])))
  /\ (JsString.occurs "\" (relative (dirname (name this)) (join [outDir_; relative_])) = false ->
      getPath this outDir_ relative_ =
        match JsString.head (relative (dirname (name this)) (join [outDir_; relative_])) with
        | Some "."%char => relative (dirname (name this)) (join [outDir_; relative_])
        | _ => "./" ++ relative (dirname (name this)) (join [outDir_; relative_])
        end).
Proof.
  split; [apply getPath_dot|]. split; [apply getPath_backslashes|].
  intros H. now destruct (getPath_forward_slashes this outDir_ relative_ H) as (E & _).
Qed.

Lemma output_path_shape_witness :
  @getPath SimplePath.posix Demo.libRs "/proj/src/.cache/pkg" "demo_crate.js"
    = ".cache/pkg/demo_crate.js".
Proof.
  destruct (output_path_shape SimplePath.posix Demo.libRs "/proj/src/.cache/pkg"
              "demo_crate.js") as (_ & _ & H).
  now rewrite (H eq_refl).
Defined.

(* ================================================================== *)
(** ** Manifests that are not there, and manifests that are plain *)
(* ================================================================== *)

(** For a [.rs] file or a [Cargo.toml] whose manifest the bundler loads as
    [null] or [undefined], or whose [Cargo.toml] is not located, [parse]
    throws a TypeError, not the crate-type error, and makes no call. *)
Theorem absent_manifest_is_a_type_error
        (path : PathModule) (w : World) (this : Asset) (code : string) (s : AssetState)
        (cargoConfig : value) :
  isTargetRust this = true ->
  getConfig w (name this) ["Cargo.toml"] = inr cargoConfig ->
  resolve w (name this) ["Cargo.toml"] = None
  \/ cargoConfig = VNull \/ cargoConfig = VUndefined ->
  exists what, parse w this code s = (inl (TypeError what), s).
Proof.
  intros Hr Hc H. rewrite (parse_any w this code s Hr), Hc.
  destruct (resolve w (name this) ["Cargo.toml"]) as [file|] eqn:Ef.
  - destruct H as [H | [-> | ->]]; [discriminate | |]; eexists; reflexivity.
  - eexists. reflexivity.
Qed.

Lemma absent_manifest_is_a_type_error_witness :
  exists what,
    @parse SimplePath.posix (Demo.withManifest VNull (Demo.world None None true true true ""))
           Demo.libRs "" initial = (inl (TypeError what), initial).
Proof.
  apply (absent_manifest_is_a_type_error SimplePath.posix
           (Demo.withManifest VNull (Demo.world None None true true true ""))
           Demo.libRs "" initial VNull eq_refl eq_refl).
  right. left. reflexivity.
Defined.

(** The agreement of the method with the specification on plain manifests,
    on the manifest of the specification's example. *)
Lemma plain_manifest_dependencies_witness :
  @collectDependencies SimplePath.posix
     (Demo.world None None true true true
        "demo_crate.d: /proj/src/a.rs /proj/src/b.rs /proj/src/lib.rs")
     Demo.libRs
     {| jsPath := None; jsAltPath := None; wasmPath := None;
        depsPath := Some Demo.depsFile; log := [] |} =
    (inr VUndefined,
     {| jsPath := None; jsAltPath := None; wasmPath := None;
        depsPath := Some Demo.depsFile;
        log := [ReadFile Demo.depsFile; AddDependency "/proj/src/a.rs" true;
                AddDependency "/proj/src/b.rs" true] |}).
Proof.
  refine (proj1 (plain_manifest_dependencies SimplePath.posix
            (Demo.world None None true true true
               "demo_crate.d: /proj/src/a.rs /proj/src/b.rs /proj/src/lib.rs")
            Demo.libRs
            {| jsPath := None; jsAltPath := None; wasmPath := None;
               depsPath := Some Demo.depsFile; log := [] |}
            Demo.depsFile "demo_crate.d" "/proj/src/a.rs"
            ["/proj/src/b.rs"; "/proj/src/lib.rs"]
            eq_refl eq_refl eq_refl eq_refl _)).
  repeat constructor.
Defined.
